(** * Polemarch API v2 serializers: a shallow embedding and its properties

  Source: [src/polemarch/api/v2/serializers.py].

  The serializers are Python classes over Django models.  The embedding
  keeps the control flow of each method and makes three things explicit:

  - exceptions: a method that can [raise] returns a [result];
  - the database: a method that writes rows is a function on the rows,
    paired with its [result], and [transaction.atomic] restores the rows
    when the wrapped block raises;
  - JSON-like values (request bodies, rendered representations): the
    type [json], with Python dictionaries as finite maps. *)

From stdpp Require Import gmap strings list fin_maps fin_sets.
From Stdlib Require Import ZArith Lia.

#[local] Set Warnings "-register-all".

(** ** Python values, exceptions and effects *)

Module Py.

(** The exception classes the serializers raise or let through. *)
Inductive exn :=
| PermissionDenied (detail : string)     (* rest_framework.exceptions.PermissionDenied *)
| ValidationError (detail : string)      (* rest_framework.exceptions.ValidationError *)
| ValidationException (detail : string)  (* OneGroupSerializer.ValidationException *)
| NotApplicable (detail : string)        (* main.exceptions.NotApplicable *)
| ValueError (msg : string)              (* builtin *)
| TypeError                              (* builtin *)
| KeyError (key : string)                (* builtin *)
| AttributeError                         (* builtin *)
| DoesNotExist.                          (* Model.DoesNotExist *)

(** [status_code] of the API exceptions whose class is in view: the two
    framework classes carry 403 and 400, and line 620 sets 409 on
    [OneGroupSerializer.ValidationException].  The other classes are
    either builtins (no status) or declared outside this file. *)
Definition status_code (e : exn) : option Z :=
  match e with
  | PermissionDenied _ => Some 403%Z
  | ValidationError _ => Some 400%Z
  | ValidationException _ => Some 409%Z
  | _ => None
  end.

Inductive result (A : Type) :=
| Ok (a : A)
| Raise (e : exn).
Arguments Ok {A} a.
Arguments Raise {A} e.

#[export] Instance result_ret : MRet result := λ A, Ok.
#[export] Instance result_bind : MBind result :=
  λ A B f m, match m with Ok a => f a | Raise e => Raise e end.

(** [try: body except cls: handler] for one builtin class. *)
Definition is_ValueError (e : exn) : bool :=
  match e with ValueError _ => true | _ => false end.
Definition is_KeyError (e : exn) : bool :=
  match e with KeyError _ => true | _ => false end.

Definition try_except {A} (body : result A) (catches : exn → bool)
    (handler : result A) : result A :=
  match body with
  | Ok a => Ok a
  | Raise e => if catches e then handler else Raise e
  end.

(** A computation over database rows of type [S]. *)
Definition db (S A : Type) : Type := S → result A * S.

#[export] Instance db_ret {S} : MRet (db S) := λ A a s, (Ok a, s).
#[export] Instance db_bind {S} : MBind (db S) :=
  λ A B f m s,
    match m s with
    | (Ok a, s') => f a s'
    | (Raise e, s') => (Raise e, s')
    end.

Definition raise {S A} (e : exn) : db S A := λ s, (Raise e, s).
Definition lift {S A} (r : result A) : db S A := λ s, (r, s).
Definition get {S} : db S S := λ s, (Ok s, s).
Definition modify {S} (f : S → S) : db S () := λ s, (Ok (), f s).

(** [transaction.atomic]: when the block raises, the rows written inside
    it are rolled back and the exception propagates. *)
Definition atomic {S A} (block : db S A) : db S A :=
  λ s, match block s with
       | (Ok a, s') => (Ok a, s')
       | (Raise e, _) => (Raise e, s)
       end.

(** [for x in xs: body(x)] *)
Fixpoint for_each {S A} (xs : list A) (body : A → db S ()) : db S () :=
  match xs with
  | [] => mret ()
  | x :: xs' => body x ≫= λ _, for_each xs' body
  end.

(** JSON-like values.  A Python [dict] with string keys is a finite map. *)
Inductive json :=
| JNull
| JBool (b : bool)
| JInt (z : Z)
| JStr (s : string)
| JList (l : list json)
| JDict (d : gmap string json).

(** Python truthiness, as used by [if not x]. *)
Definition truthy (j : json) : bool :=
  match j with
  | JNull => false
  | JBool b => b
  | JInt z => negb (Z.eqb z 0)
  | JStr s => negb (String.eqb s "")
  | JList l => match l with [] => false | _ => true end
  | JDict d => negb (bool_decide (d = ∅))
  end.

(** Attribute access that only a [dict] offers ([.get], [.keys],
    [.items]): any other value raises [AttributeError]. *)
Definition as_dict (j : json) : result (gmap string json) :=
  match j with
  | JDict d => Ok d
  | _ => Raise AttributeError
  end.

(** [x[key]] on a JSON-like value with a string key: a [dict] looks the
    key up and raises [KeyError] when it is absent; a list or a string
    rejects a string index with [TypeError], as do the scalars. *)
Definition getitem (j : json) (key : string) : result json :=
  match j with
  | JDict d => match d !! key with
               | Some v => Ok v
               | None => Raise (KeyError key)
               end
  | _ => Raise TypeError
  end.

(** [request.user] *)
Record User := mkUser { user_id : Z; username : string }.

Record Response (A : Type) := mkResponse { data : A; status : Z }.
Arguments mkResponse {A} data status.
Arguments data {A} r.
Arguments status {A} r.

End Py.
Import Py.

(** ** [with_signals] and [_SignalSerializer] *)

Module Signal.

Section WithSignals.
Context {S Row : Type}.
(** What the receivers of [api_pre_save] and [api_post_save] (connected
    outside this file) answer for an instance and a user: a receiver
    refuses a save by raising. *)
Variable api_pre_save api_post_save : Row → User → result ().

(** [with_signals], lines 58-75, around the method [func]; [user] is
    [args[0].context['request'].user]. *)
Definition with_signals (user : User) (func : db S Row) : db S Row :=
  atomic (func ≫= λ instance,
          lift (api_pre_save instance user) ≫= λ _,
          mret instance) ≫= λ instance,
  atomic (lift (api_post_save instance user)) ≫= λ _,
  mret instance.

(** Vocabulary for the statements below: the outcome of a saving method
    run between the signals and inside an enclosing transaction.  A
    receiver that raises undoes the save; otherwise the saved instance is
    returned and the rows are as the method left them. *)
Definition saved_unless_refused (user : User) (instance : Row) (before after : S)
    : result Row * S :=
  match api_pre_save instance user with
  | Raise e => (Raise e, before)
  | Ok _ =>
      match api_post_save instance user with
      | Raise e => (Raise e, before)
      | Ok _ => (Ok instance, after)
      end
  end.

End WithSignals.

End Signal.

(** ** [_WithPermissionsSerializer]: the [permissions] and [owner] actions *)

Module Permissions.

(** One row of [instance.acl]; the same three fields are what
    [PermissionsSerializer] renders and what a request entry carries. *)
Record perm := Perm { member : Z; member_type : string; role : string }.

(** The rows of one ACL-bearing instance that the actions read or write. *)
Record Entity := mkEntity { owner : Z; acl : list perm }.

Record Request := mkRequest { method : string; rdata : list perm }.

Definition set_acl (rows : list perm) (s : Entity) : Entity :=
  {| owner := owner s; acl := rows |}.

(** The elements of the [frozenset] built at line 117: an [int] member id
    and a [str] member type. *)
Inductive pyatom := AInt (z : Z) | AStr (s : string).

#[export] Instance pyatom_eq_dec : EqDecision pyatom.
Proof. solve_decision. Defined.

#[export] Instance pyatom_countable : Countable pyatom :=
  inj_countable'
    (λ a, match a with AInt z => inl z | AStr s => inr s end)
    (λ x, match x with inl z => AInt z | inr s => AStr s end)
    (λ a, match a with AInt _ => eq_refl | AStr _ => eq_refl end).

#[export] Instance perm_eq_dec : EqDecision perm.
Proof. solve_decision. Defined.

Definition perms_msg : string :=
  "You do not have permission to perform this action.".

(** The manager calls on [instance.acl].  The models are not part of
    this file; the rows are kept in creation order. *)
Definition acl_create (permission_args : perm) : db Entity () :=
  modify (λ s, set_acl (acl s ++ [permission_args]) s).

Definition acl_clear : db Entity () :=
  modify (set_acl []).

(** Modelled from the spec: [extend] is a queryset method of the models,
    which are not part of this file.  By §4.1 the merge "removes any
    pre-existing entry with the same (member, member_type)", so [extend]
    is taken to leave the selection to the [filter] that follows it:
    [acl.all().extend().filter(member=m, member_type=t).delete()]. *)
Definition acl_delete_member (m : Z) (t : string) : db Entity () :=
  modify (λ s,
    set_acl (filter (λ p, ¬ (member p = m ∧ member_type p = t)) (acl s)) s).

(** [__get_all_permission_serializer().data] *)
Definition get_all_permission_serializer_data : db Entity (list perm) :=
  get ≫= λ s, mret (acl s).

(** [__duplicates_check], lines 116-119. *)
Definition without_role (data : list perm) : list (gset pyatom) :=
  (λ e, {[AInt (member e); AStr (member_type e)]}) <$> data.

Definition duplicates_check (data : list perm) : result () :=
  let wr := without_role data in
  if decide (length wr ≠ length (elements (list_to_set wr : gset (gset pyatom))))
  then Raise (ValueError "There is duplicates in your permissions set.")
  else Ok ().

(** [__permission_set], lines 121-130. *)
Definition permission_set (data : list perm) (remove_old : bool) : db Entity () :=
  atomic (
    lift (duplicates_check data) ≫= λ _,
    for_each data (λ permission_args,
      (if remove_old
       then acl_delete_member (member permission_args) (member_type permission_args)
       else mret ()) ≫= λ _,
      acl_create permission_args)).

Section Handler.
(** [instance.acl_handler.manageable_by] and the queryset method
    [filter_by_data] live with the models. *)
Variable manageable_by : Entity → User → bool.
Variable filter_by_data : list perm → perm → bool.

(** The body of [permissions], lines 134-145. *)
Definition permissions_body (user : User) (request : Request)
    : db Entity (Response (list perm)) :=
  get ≫= λ s,
  (if bool_decide (method request ≠ "GET") && negb (manageable_by s user)
   then raise (PermissionDenied perms_msg)
   else mret ()) ≫= λ _,
  (if bool_decide (method request = "DELETE") then
     modify (λ s, set_acl (filter (λ p, filter_by_data (rdata request) p = false) (acl s)) s)
   else if bool_decide (method request = "POST") then
     permission_set (rdata request) true
   else if bool_decide (method request = "PUT") then
     acl_clear ≫= λ _, permission_set (rdata request) false
   else mret ()) ≫= λ _,
  get_all_permission_serializer_data ≫= λ d,
  mret (mkResponse d 200%Z).

(** [permissions] is decorated with [transaction.atomic]. *)
Definition permissions (user : User) (request : Request)
    : db Entity (Response (list perm)) :=
  atomic (permissions_body user request).

End Handler.

(** [owner] with [GET], line 155. *)
Definition owner_get : db Entity (Response Z) :=
  get ≫= λ s, mret (mkResponse (owner s) 200%Z).

(** *** Vocabulary for the statements below *)

(** The pair the specification identifies an entry by. *)
Definition perm_key (p : perm) : Z * string := (member p, member_type p).

(** The rows after one turn of the loop of lines 124-130. *)
Definition permission_step (remove_old : bool) (rows : list perm) (e : perm)
    : list perm :=
  (if remove_old
   then filter (λ p, ¬ (member p = member e ∧ member_type p = member_type e)) rows
   else rows) ++ [e].

End Permissions.

(** ** [VariableSerializer] and [_WithVariablesSerializer] *)

Module Variables.

Definition ENCRYPTED : string := "[~~ENCRYPTED~~]".




(** The masking loop of lines 356-358 (and again 527-529):
    [for mask_key in hv: if mask_key in vars.keys(): vars[mask_key] = ...]. *)
Definition mask_step (vars : json) (mask_key : string) : result json :=
  as_dict vars ≫= λ d,
  mret (if bool_decide (is_Some (d !! mask_key))
        then JDict (<[mask_key := JStr ENCRYPTED]> d)
        else vars).

Fixpoint mask_loop (hv : list string) (vars : json) : result json :=
  match hv with
  | [] => mret vars
  | mask_key :: hv' => mask_step vars mask_key ≫= mask_loop hv'
  end.

(** What the loop is meant to compute, stated per key: a key of [hv] that
    the map holds now holds the sentinel, every other key holds what it
    held, and no key is added or dropped. *)
Definition masked (hv : list string) (vars : gmap string json) : gmap string json :=
  map_imap (λ k v, Some (if bool_decide (k ∈ hv) then JStr ENCRYPTED else v)) vars.

(** [get_vars] is overridden per serializer class.  It returns an object
    that lives inside [representation], and the loop assigns into that
    object: [vars_get] finds it ([JNull] for Python's [None]) and
    [vars_put] is the representation once the object has changed. *)
Record VarsAccess := mkVarsAccess {
  vars_get : gmap string json → result json;
  vars_put : json → gmap string json → gmap string json
}.

(** [_WithVariablesSerializer.get_vars], lines 347-348. *)
Definition get_vars : VarsAccess :=
  {| vars_get := λ representation, mret (default JNull (representation !! "vars"));
     vars_put := λ vars representation, <["vars" := vars]> representation |}.

(** [_WithVariablesSerializer.to_representation], lines 350-359.  [rep] is
    what the framework's [to_representation] rendered for the instance and
    [instance_HIDDEN_VARS] is [getattr(instance, 'HIDDEN_VARS', ...)].
    The dictionaries in [rep] are taken to be the representation's own:
    the attribute accessors of the models, which are not part of this
    file, build them anew on each read, so assigning into them reaches
    nothing the instance keeps. *)
Definition to_representation (self : VarsAccess)
    (instance_HIDDEN_VARS : option (list string)) (rep : gmap string json)
    (hidden_vars : option (list string)) : result (gmap string json) :=
  let hv := match hidden_vars with
            | None => default [] instance_HIDDEN_VARS
            | Some hv => hv
            end in
  vars_get self rep ≫= λ vars,
  match vars with
  | JNull => mret rep
  | _ => mask_loop hv vars ≫= λ vars', mret (vars_put self vars' rep)
  end.

(** [_do_with_vars], lines 330-334: the named method of the parent class,
    run in a transaction. *)
Definition do_with_vars {S A} (method : db S A) : db S A := atomic method.

(** [_SignalSerializer.update], lines 88-90: the framework's [update]
    ([model_update] assigns each validated key to the stored row, which is
    saved and returned) between the signals. *)
Definition signal_update {Row VData}
    (api_pre_save api_post_save : Row → User → result ()) (user : User)
    (model_update : VData → Row → Row) (validated_data : VData) : db Row Row :=
  Signal.with_signals api_pre_save api_post_save user
    (modify (model_update validated_data) ≫= λ _, get).

Section Update.
(** [_WithVariablesSerializer.update], lines 339-345, over the stored row
    of the instance.  [children_attr] is the instance's [children]
    attribute when it has one, [data_children] the validated [children]
    when the request carries it, and [self_do_with_vars] is
    [self._do_with_vars("update", ...)], which a subclass may override. *)
Context {Row VData : Type}.
Variable children_attr : Row → option bool.
Variable data_children : VData → option bool.
Variable self_do_with_vars : VData → db Row Row.

Definition update (validated_data : VData) : db Row Row :=
  get ≫= λ instance,
  let children_instance := default false (children_attr instance) in
  if bool_decide (default children_instance (data_children validated_data)
                  ≠ children_instance)
  then raise (ValidationError "Children not allowed to update.")
  else self_do_with_vars validated_data.

End Update.

End Variables.

(** ** [GroupSerializer] / [OneGroupSerializer] *)

Module Group.

Record GroupRow := mkGroup {
  id : Z;
  name : string;
  notes : string;
  children : bool;
  hosts : list Z;
  groups : list Z;
  owner : Z
}.

(** The writable fields of [OneGroupSerializer]: [hosts], [groups] and
    [owner] are read-only, [id] and [url] are not written. *)
Record GroupData := mkGroupData {
  vd_name : option string;
  vd_notes : option string;
  vd_children : option bool
}.

Definition model_update (validated_data : GroupData) (g : GroupRow) : GroupRow :=
  {| id := id g;
     name := default (name g) (vd_name validated_data);
     notes := default (notes g) (vd_notes validated_data);
     children := default (children g) (vd_children validated_data);
     hosts := hosts g;
     groups := groups g;
     owner := owner g |}.

Section Writes.
Variable api_pre_save api_post_save : GroupRow → User → result ().
Variable user : User.

(** The group serializers inherit [_do_with_vars] and [update]. *)
Definition do_with_vars_update (validated_data : GroupData) : db GroupRow GroupRow :=
  Variables.do_with_vars
    (Variables.signal_update api_pre_save api_post_save user model_update
       validated_data).

Definition update : GroupData → db GroupRow GroupRow :=
  Variables.update (λ g, Some (children g)) vd_children do_with_vars_update.

End Writes.

End Group.

(** ** [PeriodictaskSerializer] *)

Module Periodictask.

(** A validated [template]: the [Template] instance, of which the
    serializer reads [project]. *)
Record TemplateRef := mkTemplateRef { template_id : Z; template_project : Z }.

(** [validated_data]: a dictionary, each key present or absent.  The keys
    the serializer does not look at stay in [rest]. *)
Record Data := mkData {
  kind : option string;
  template : option TemplateRef;
  project : option Z;
  inventory : option string;
  mode : option string;
  owner : option Z;
  rest : gmap string json
}.

(** The stored periodic task, by the fields above. *)
Record Row := mkRow {
  row_kind : string;
  row_template : option Z;
  row_project : option Z;
  row_inventory : string;
  row_mode : string;
  row_owner : option Z;
  row_rest : gmap string json
}.

(** The override of lines 433-442, up to the [super] call:
    [kw.get('template')] is [None] when the key is absent, and
    [template.project] on [None] raises [AttributeError]. *)
Definition prepare (kw : Data) : result Data :=
  if bool_decide (kind kw = Some "TEMPLATE") then
    match template kw with
    | None => Raise AttributeError
    | Some t =>
        mret {| kind := kind kw;
                template := template kw;
                project := Some (template_project t);
                inventory := Some "";
                mode := Some "";
                owner := owner kw;
                rest := rest kw |}
    end
  else mret kw.

(** The framework's [update]: every validated key is assigned. *)
Definition model_update (kw : Data) (r : Row) : Row :=
  {| row_kind := default (row_kind r) (kind kw);
     row_template := match template kw with
                     | Some t => Some (template_id t)
                     | None => row_template r
                     end;
     row_project := match project kw with
                    | Some p => Some p
                    | None => row_project r
                    end;
     row_inventory := default (row_inventory r) (inventory kw);
     row_mode := default (row_mode r) (mode kw);
     row_owner := match owner kw with
                  | Some o => Some o
                  | None => row_owner r
                  end;
     row_rest := rest kw ∪ row_rest r |}.

Section Writes.
(** The model's field defaults, which [create] uses for absent keys. *)
Variable defaults : Row.
Variable api_pre_save api_post_save : Row → User → result ().
Variable user : User.

(** The framework's [create]: a new row from the validated keys. *)
Definition model_create (kw : Data) : Row := model_update kw defaults.

(** [_SignalSerializer.create], lines 84-86; the stored task is [None]
    before. *)
Definition signal_create (validated_data : Data) : db (option Row) Row :=
  Signal.with_signals api_pre_save api_post_save user
    (modify (λ _, Some (model_create validated_data)) ≫= λ _,
     mret (model_create validated_data)).

(** [_WithPermissionsSerializer.create], lines 104-106. *)
Definition permissions_create (validated_data : Data) : db (option Row) Row :=
  signal_create {| kind := kind validated_data;
                   template := template validated_data;
                   project := project validated_data;
                   inventory := inventory validated_data;
                   mode := mode validated_data;
                   owner := Some (user_id user);
                   rest := rest validated_data |}.

(** [PeriodictaskSerializer._do_with_vars], lines 433-442, as reached from
    [create] and from [update]. *)
Definition do_with_vars_create (validated_data : Data) : db (option Row) Row :=
  atomic (
    lift (prepare validated_data) ≫= λ kw,
    Variables.do_with_vars (permissions_create kw)).

Definition do_with_vars_update (validated_data : Data) : db Row Row :=
  atomic (
    lift (prepare validated_data) ≫= λ kw,
    Variables.do_with_vars
      (Variables.signal_update api_pre_save api_post_save user model_update kw)).

(** [create] and [update] are inherited (lines 336-345): neither the task
    nor its validated data has a [children]. *)
Definition create (validated_data : Data) : db (option Row) Row :=
  do_with_vars_create validated_data.

Definition update : Data → db Row Row :=
  Variables.update (λ _, None) (λ _, None) do_with_vars_update.

End Writes.

(** [permissions] and [owner], lines 444-449. *)
Definition permissions {S A} : db S A :=
  atomic (raise (NotApplicable "See project permissions.")).

Definition owner_action {S A} : db S A :=
  raise (NotApplicable "See project owner.").

End Periodictask.

(** ** [TemplateSerializer] *)

Module Template.

Record TemplateRow := mkTemplate {
  kind : string;
  HIDDEN_VARS : list string;
  (** what the framework renders from the serializer's readable fields *)
  rendered : gmap string json
}.

(** [TemplateSerializer.get_vars], lines 517-521:
    [representation['data']['vars']], [None] on [KeyError]. *)
Definition get_vars : Variables.VarsAccess :=
  {| Variables.vars_get := λ representation,
       try_except
         (getitem (JDict representation) "data" ≫= λ d, getitem d "vars")
         is_KeyError
         (mret JNull);
     Variables.vars_put := λ vars representation,
       match representation !! "data" with
       | Some (JDict d) => <["data" := JDict (<["vars" := vars]> d)]> representation
       | _ => representation
       end |}.

(** [set_opts_vars], lines 523-530. *)
Definition set_opts_vars (rep : json) (hidden_vars : list string) : result json :=
  as_dict rep ≫= λ d,
  if negb (truthy (default JNull (d !! "vars"))) then mret rep
  else
    let var := default JNull (d !! "vars") in
    Variables.mask_loop hidden_vars var ≫= λ var',
    mret (JDict (<["vars" := var']> d)).

(** An option as the loop expects it: a dictionary whose ["vars"], when
    it has one, is a dictionary or a value that [not] takes for empty. *)
Definition option_shape (rep : json) : Prop :=
  match rep with
  | JDict d => match d !! "vars" with
               | None | Some (JDict _) => True
               | Some v => truthy v = false
               end
  | _ => False
  end.

#[export] Instance option_shape_dec rep : Decision (option_shape rep).
Proof.
  destruct rep as [| | | | |d]; simpl; try (right; tauto).
  destruct (d !! "vars") as [[| | | | |v]|]; simpl;
    first [ left; exact I | apply _ ].
Defined.

(** The option with its ["vars"] masked. *)
Definition masked_option (hv : list string) (rep : json) : json :=
  match rep with
  | JDict d => match d !! "vars" with
               | Some (JDict v) => JDict (<["vars" := JDict (Variables.masked hv v)]> d)
               | _ => rep
               end
  | _ => rep
  end.

(** [repr_options], lines 532-536.  Each key of [data['options']] is
    reassigned in turn; without the key [.get] yields a fresh empty
    dictionary and [data] is left as it is. *)
Definition repr_options (instance : TemplateRow) (data : gmap string json)
    (hidden_vars : option (list string)) : result (gmap string json) :=
  let hv := default (HIDDEN_VARS instance) hidden_vars in
  match data !! "options" with
  | None => mret data
  | Some opts =>
      as_dict opts ≫= λ options,
      map_fold
        (λ name rep (acc : result (gmap string json)),
           acc ≫= λ o,
           set_opts_vars rep hv ≫= λ rep',
           mret (<[name := rep']> o))
        (mret options) options ≫= λ options',
      mret (<["options" := JDict options']> data)
  end.

Section Render.
(** [models.PeriodicTask.HIDDEN_VARS], declared with the models. *)
Variable PeriodicTask_HIDDEN_VARS : list string.

(** [TemplateSerializer.to_representation], lines 538-546. *)
Definition to_representation (instance : TemplateRow) : result (gmap string json) :=
  let data : gmap string json := ∅ in
  if bool_decide (kind instance ∈ ["Task"; "Module"]) then
    let hidden_vars := PeriodicTask_HIDDEN_VARS in
    Variables.to_representation get_vars (Some (HIDDEN_VARS instance))
      (rendered instance) (Some hidden_vars) ≫= λ data,
    repr_options instance data (Some hidden_vars)
  else mret data.

End Render.

End Template.

(** ** [OneProjectSerializer]: execution *)

Module Project.

Record InventoryRow := mkInventory { inventory_id : Z; inventory_name : string }.

(** The [inventory] argument handed on: the resolved [Inventory] instance,
    or the request's own value when the [except ValueError] branch ran. *)
Inductive inventory_arg :=
| InvObject (inv : InventoryRow)
| InvRaw (j : json).

(** The call [self.instance.execute(kind, target, inventory, initiator=...,
    initiator_type=..., executor=..., **data)]. *)
Record ExecCall := mkExecCall {
  ec_kind : string;
  ec_target : string;
  ec_inventory : inventory_arg;
  ec_initiator : Z;
  ec_initiator_type : string;
  ec_executor : User;
  ec_options : gmap string json
}.

Record ExecResponse := mkExecResponse {
  detail : string;
  history_id : Z;
  executor : Z
}.

Section Execution.
(** Builtins: [int] on a string ([None]: it raises [ValueError]), [str],
    and [format] of the inventory. *)
Variable int_of_str : string → option Z.
Variable py_str : json → string.
Variable format_inventory : inventory_arg → string.
(** The models: the inventory table, [acl_handler.viewable_by], and
    [Project.execute], which answers with a history id. *)
Variable inventories : gmap Z InventoryRow.
Variable viewable_by : InventoryRow → User → bool.
Variable execute : ExecCall → result Z.

(** [int(x)] on a request value. *)
Definition py_int (x : json) : result Z :=
  match x with
  | JInt z => mret z
  | JBool b => mret (if b then 1 else 0)%Z
  | JStr s => match int_of_str s with
              | Some z => mret z
              | None => Raise (ValueError "invalid literal for int()")
              end
  | JNull | JList _ | JDict _ => Raise TypeError
  end.

(** [Inventory.objects.get(id=n)] *)
Definition Inventory_objects_get (n : Z) : result InventoryRow :=
  match inventories !! n with
  | Some inv => mret inv
  | None => Raise DoesNotExist
  end.

(** [dict.pop(key)] *)
Definition pop (key : string) (d : gmap string json)
    : result (json * gmap string json) :=
  match d !! key with
  | Some v => mret (v, delete key d)
  | None => Raise (KeyError key)
  end.

(** Lines 711-726 of [_execution]: the initiator, the call of
    [self.instance.execute] and the response. *)
Definition dispatch (instance_id : Z) (kind : string) (data : gmap string json)
    (user : User) (template : option Z) (template_option : option json)
    (inventory : inventory_arg) : result (Response ExecResponse) :=
  let '(init_type, obj_id, data) :=
    match template with
    | Some t => ("template", t, <["template_option" := default JNull template_option]> data)
    | None => ("project", instance_id, data)
    end in
  pop kind data ≫= λ '(target, data),
  execute {| ec_kind := kind;
             ec_target := py_str target;
             ec_inventory := inventory;
             ec_initiator := obj_id;
             ec_initiator_type := init_type;
             ec_executor := user;
             ec_options := data |} ≫= λ history_id,
  let rdata := {| detail := "Started at inventory " +:+ format_inventory inventory +:+ ".";
                  history_id := history_id;
                  executor := user_id user |} in
  mret (mkResponse rdata 201%Z).

(** [_execution], lines 700-726.  [instance_id] is [self.instance.id];
    [template] and [template_option] are the keyword arguments. *)
Definition _execution (instance_id : Z) (kind : string) (data : gmap string json)
    (user : User) (template : option Z) (template_option : option json)
    : result (Response ExecResponse) :=
  pop "inventory" data ≫= λ '(inventory, data),
  try_except
    (py_int inventory ≫= λ n,
     Inventory_objects_get n ≫= λ inv,
     if negb (viewable_by inv user)
     then Raise (PermissionDenied "You don't have permission to inventory.")
     else mret (InvObject inv))
    is_ValueError
    (mret (InvRaw inventory)) ≫= λ inventory,
  dispatch instance_id kind data user template template_option inventory.

(** [execute_playbook] and [execute_module], lines 728-732. *)
Definition execute_playbook (instance_id : Z) (request_data : gmap string json)
    (request_user : User) : result (Response ExecResponse) :=
  _execution instance_id "playbook" request_data request_user None None.

Definition execute_module (instance_id : Z) (request_data : gmap string json)
    (request_user : User) : result (Response ExecResponse) :=
  _execution instance_id "module" request_data request_user None None.

End Execution.

End Project.

(** ** [DictField] and [DataSerializer] *)

Module Fields.

Section Field.
(** The framework's [self.fail(key)] raises; what it raises is the
    framework's business.  [json.loads] on a string is a builtin. *)
Variable fail : string → exn.
Variable json_loads : string → result json.

(** [to_internal_value], lines 40-48 and 483-491 (the two classes have the
    same body). *)
Definition to_internal_value (data : json) : result json :=
  match data with
  | JStr _ | JDict _ | JList _ => mret data
  | JNull | JBool _ | JInt _ => Raise (fail "Unknown type.")
  end.

(** [to_representation], lines 50-55 and 493-498: [json.loads] refuses
    what is not a string with [TypeError]. *)
Definition to_representation (value : json) : result json :=
  match value with
  | JDict _ | JList _ => mret value
  | JStr s => json_loads s
  | JNull | JBool _ | JInt _ => Raise TypeError
  end.

End Field.

End Fields.

(** ** [_WithPermissionsSerializer]: the [owner] action *)

Module Owner.
Import Permissions.

Section OwnerAction.
(** [acl_handler.owned_by] and [acl_handler.set_owner] live with the
    models; [users] is the table behind [User.objects]. *)
Variable owned_by : Entity → User → bool.
Variable set_owner : User → Entity → Entity.
Variable users : gmap Z User.

(** [User.objects.get(pk=...)] *)
Definition User_objects_get (pk : Z) : result User :=
  match users !! pk with
  | Some u => mret u
  | None => Raise DoesNotExist
  end.

(** [_change_owner], lines 147-151; [request_data] is the primary key the
    request carries. *)
Definition _change_owner (user : User) (request_data : Z)
    : db Entity (Response json) :=
  get ≫= λ s,
  (if negb (owned_by s user)
   then raise (PermissionDenied perms_msg)
   else mret ()) ≫= λ _,
  lift (User_objects_get request_data) ≫= λ new_owner,
  modify (set_owner new_owner) ≫= λ _,
  mret (mkResponse (JStr "Owner changed") 200%Z).

(** [owner], lines 153-157: a method other than GET and PUT falls off the
    end and answers [None]. *)
Definition owner_action (user : User) (method : string) (request_data : Z)
    : db Entity (option (Response json)) :=
  if bool_decide (method = "GET") then
    get ≫= λ s, mret (Some (mkResponse (JInt (owner s)) 200%Z))
  else if bool_decide (method = "PUT") then
    _change_owner user request_data ≫= λ r, mret (Some r)
  else mret None.

End OwnerAction.

End Owner.

(** ** Sample data *)

Module Samples.
Import Permissions.

Definition ann : User := mkUser 5 "ann".
Definition bob : User := mkUser 6 "bob".

Definition everyone_manages : Entity → User → bool := λ _ _, true.
Definition nobody_manages : Entity → User → bool := λ _ _, false.
Definition same_entry : list perm → perm → bool :=
  λ data p, bool_decide (p ∈ data).

Definition editor2 : perm := Perm 2 "user" "EDITOR".
Definition master2 : perm := Perm 2 "user" "MASTER".
Definition master3 : perm := Perm 3 "team" "MASTER".
Definition executor3 : perm := Perm 3 "team" "EXECUTOR".

(** An entity owned by user 1, with one grant. *)
Definition shared : Entity := mkEntity 1 [editor2].

(** A hidden-key set, and a template with a secret in its own variables
    and in one of its two options. *)
Definition hidden_keys : list string := ["key-file"; "private-key"].

Definition nightly_vars : gmap string json :=
  <["private-key" := JStr "other secret"]> {["forks" := JInt 2]}.
Definition deploy_options : gmap string json :=
  <["nightly" := JDict {["vars" := JDict nightly_vars]}]>
    {["plain" := JDict {["playbook" := JStr "other.yml"]}]}.
Definition deploy_vars : gmap string json :=
  <["private-key" := JStr "secret"]> {["limit" := JStr "web"]}.
Definition deploy_data : gmap string json :=
  <["playbook" := JStr "site.yml"]> {["vars" := JDict deploy_vars]}.
Definition deploy_rendered : gmap string json :=
  <["name" := JStr "deploy"]>
    (<["data" := JDict deploy_data]> {["options" := JDict deploy_options]}).

Definition deploy : Template.TemplateRow :=
  Template.mkTemplate "Task" ["vault-password-file"] deploy_rendered.
Definition host_template : Template.TemplateRow :=
  Template.mkTemplate "Host" ["vault-password-file"] deploy_rendered.

(** A periodic-task request of kind TEMPLATE that also names an inventory
    and a mode, and the model defaults of a new task. *)
Definition template9 : Periodictask.TemplateRef := Periodictask.mkTemplateRef 9 3.
Definition template_task : Periodictask.Data :=
  Periodictask.mkData (Some "TEMPLATE") (Some template9) None
    (Some "5") (Some "shell") None {["name" := JStr "nightly"]}.
Definition blank_task : Periodictask.Row :=
  Periodictask.mkRow "PLAYBOOK" None None "" "" None ∅.
Definition stored_task : Periodictask.Row :=
  Periodictask.mkRow "PLAYBOOK" None (Some 3%Z) "7" "site.yml" (Some 1%Z) ∅.

(** Receivers that let every save through. *)
Definition accept {Row} : Row → User → result () := λ _ _, Ok ().

(** A group that holds hosts, and a request to turn it into a group of
    groups. *)
Definition web : Group.GroupRow := Group.mkGroup 11 "web" "" false [21%Z; 22%Z] [] 1.
Definition make_parent : Group.GroupData := Group.mkGroupData None None (Some true).
Definition rename : Group.GroupData :=
  Group.mkGroupData (Some "frontend") None (Some false).

(** Execution: one inventory, which nobody may view; [int] reads decimal
    digits only. *)
Definition inventory7 : Project.InventoryRow := Project.mkInventory 7 "prod".
Definition inventory_table : gmap Z Project.InventoryRow := {[7%Z := inventory7]}.
Definition digits_only (s : string) : option Z :=
  if String.eqb s "7" then Some 7%Z else None.
Definition show (j : json) : string :=
  match j with JStr s => s | _ => "" end.
Definition show_inventory (i : Project.inventory_arg) : string :=
  match i with
  | Project.InvObject inv => Project.inventory_name inv
  | Project.InvRaw j => show j
  end.
Definition history_42 : Project.ExecCall → result Z := λ _, Ok 42%Z.
Definition by_id : gmap string json :=
  <["inventory" := JStr "7"]> {["playbook" := JStr "site.yml"]}.

End Samples.

(** ** More sample data *)

Module MoreSamples.
Import Permissions Samples.

(** The owner action: user 1 owns [shared]; the user table holds ann and
    bob; [set_owner] writes the owner field. *)
Definition owner_is_user : Entity → User → bool :=
  λ s u, bool_decide (owner s = user_id u).
Definition write_owner : User → Entity → Entity :=
  λ u s, mkEntity (user_id u) (acl s).
Definition root : User := mkUser 1 "root".
Definition user_table : gmap Z User := <[5%Z := ann]> {[6%Z := bob]}.

(** Receivers: one that refuses every save. *)
Definition refuse {Row} : Row → User → result () :=
  λ _ _, Raise (ValidationError "refused").

(** A [json.loads] that knows two texts, and a [fail] that raises the
    framework's [ValidationError]. *)
Definition loads_sample (s : string) : result json :=
  if String.eqb s "{}" then Ok (JDict ∅)
  else if String.eqb s "[]" then Ok (JList [])
  else Raise (ValueError "No JSON object could be decoded").
Definition fail_sample (key : string) : exn := ValidationError key.

(** The sample template as a serializer that does not render ["data"]
    shows it. *)
Definition listed : Template.TemplateRow :=
  Template.mkTemplate "Module" []
    (<["name" := JStr "deploy"]> {["options" := JDict deploy_options]}).

(** Periodic-task requests: a playbook run, a TEMPLATE request that names
    no template, a partial update that only names an inventory; and a
    stored task of kind TEMPLATE. *)
Definition playbook_task : Periodictask.Data :=
  Periodictask.mkData (Some "PLAYBOOK") None None (Some "5") (Some "site.yml")
    (Some 9%Z) ∅.
Definition template_without : Periodictask.Data :=
  Periodictask.mkData (Some "TEMPLATE") None None (Some "5") None None ∅.
Definition only_inventory : Periodictask.Data :=
  Periodictask.mkData None None None (Some "5") None None ∅.
Definition stored_template_task : Periodictask.Row :=
  Periodictask.mkRow "TEMPLATE" (Some 9%Z) (Some 3%Z) "" "" (Some 1%Z) ∅.

(** Execution: everybody may view every inventory. *)
Definition everybody_views : Project.InventoryRow → User → bool := λ _ _, true.

(** The variables of the sample template with another secret. *)
Definition deploy_vars' : gmap string json :=
  <["private-key" := JStr "another secret"]> {["limit" := JStr "web"]}.

End MoreSamples.

(** * Properties *)

(** ** The effect monad *)

Section DbFacts.
Context {S A B : Type}.

Lemma bind_ok (m : db S A) (f : A → db S B) s a s' :
  m s = (Ok a, s') → (m ≫= f) s = f a s'.
Proof. intros H. unfold mbind, db_bind. by rewrite H. Qed.

Lemma bind_raise (m : db S A) (f : A → db S B) s e s' :
  m s = (Raise e, s') → (m ≫= f) s = (Raise e, s').
Proof. intros H. unfold mbind, db_bind. by rewrite H. Qed.

Lemma atomic_ok (m : db S A) s a s' :
  m s = (Ok a, s') → atomic m s = (Ok a, s').
Proof. intros H. unfold atomic. by rewrite H. Qed.

(** A block that raises leaves the rows as they were when it started. *)
Lemma atomic_raise (m : db S A) s e s' :
  m s = (Raise e, s') → atomic m s = (Raise e, s).
Proof. intros H. unfold atomic. by rewrite H. Qed.

Lemma atomic_rollback (m : db S A) s e s' :
  atomic m s = (Raise e, s') → s' = s.
Proof.
  unfold atomic. destruct (m s) as [[a|e'] s'']; intros H; by simplify_eq.
Qed.

End DbFacts.

(** One statement of a [db] block that returns by evaluation. *)
Ltac db_step := erewrite bind_ok by reflexivity.

Section SignalFacts.
Context {S Row : Type}.
Variable api_pre_save api_post_save : Row → User → result ().
Variable user : User.

Local Abbreviation saved_unless_refused :=
  (Signal.saved_unless_refused (S := S) api_pre_save api_post_save user).

Lemma do_with_vars_signals (func : db S Row) s instance s' :
  func s = (Ok instance, s') →
  Variables.do_with_vars
    (Signal.with_signals api_pre_save api_post_save user func) s
  = saved_unless_refused instance s s'.
Proof.
  intros Hf.
  unfold Variables.do_with_vars, Signal.with_signals, Signal.saved_unless_refused.
  unfold atomic, mbind, db_bind, lift, mret, db_ret. rewrite Hf.
  destruct (api_pre_save instance user) as [[]|e]; [|done].
  by destruct (api_post_save instance user) as [[]|e].
Qed.

Lemma atomic_saved_unless_refused (m : db S Row) s instance s' :
  m s = saved_unless_refused instance s s' →
  atomic m s = saved_unless_refused instance s s'.
Proof.
  intros Hm. unfold atomic. rewrite Hm. unfold Signal.saved_unless_refused.
  destruct (api_pre_save instance user) as [[]|e]; [|done].
  by destruct (api_post_save instance user) as [[]|e].
Qed.

End SignalFacts.

(** ** Permissions *)

Section PermissionFacts.
Import Permissions.

(** A [frozenset] of an [int] and a [str] determines both. *)
Lemma frozenset_inj m t m' t' :
  ({[AInt m; AStr t]} : gset pyatom) = {[AInt m'; AStr t']} → m = m' ∧ t = t'.
Proof.
  intros H. split.
  - assert (AInt m ∈ ({[AInt m'; AStr t']} : gset pyatom)) as Hm
      by (rewrite <- H; set_solver).
    apply elem_of_union in Hm as [Hm|Hm]; apply elem_of_singleton in Hm; congruence.
  - assert (AStr t ∈ ({[AInt m'; AStr t']} : gset pyatom)) as Ht
      by (rewrite <- H; set_solver).
    apply elem_of_union in Ht as [Ht|Ht]; apply elem_of_singleton in Ht; congruence.
Qed.

Lemma without_role_elem e data :
  ({[AInt (member e); AStr (member_type e)]} : gset pyatom) ∈ without_role data
  ↔ perm_key e ∈ perm_key <$> data.
Proof.
  unfold without_role. rewrite !list_elem_of_fmap. split.
  - intros (p & Heq & Hp). exists p. split; [|exact Hp].
    apply frozenset_inj in Heq as [? ?]. unfold perm_key. congruence.
  - intros (p & Heq & Hp). exists p. split; [|exact Hp].
    unfold perm_key in Heq. injection Heq as -> ->. done.
Qed.

Lemma without_role_NoDup data :
  NoDup (without_role data) ↔ NoDup (perm_key <$> data).
Proof.
  induction data as [|e data IH].
  - split; constructor.
  - change (without_role (e :: data))
      with (({[AInt (member e); AStr (member_type e)]} : gset pyatom)
            :: without_role data).
    rewrite fmap_cons, !NoDup_cons, IH, without_role_elem. done.
Qed.

(** [len(xs) == len(list(set(xs)))] exactly when [xs] has no repetition. *)
Lemma length_set_NoDup `{Countable T} (l : list T) :
  length (elements (list_to_set l : gset T)) = length l ↔ NoDup l.
Proof.
  split.
  - intros Hlen.
    assert (elements (list_to_set l : gset T) ⊆+ l) as Hsub.
    { apply NoDup_submseteq; [apply NoDup_elements|].
      intros x. rewrite elem_of_elements, elem_of_list_to_set. done. }
    apply submseteq_length_Permutation in Hsub; [|lia].
    rewrite <- Hsub. apply NoDup_elements.
  - intros Hnd. by apply (size_list_to_set (C := gset T)).
Qed.

Lemma duplicates_check_ok data :
  NoDup (perm_key <$> data) → duplicates_check data = Ok ().
Proof.
  intros Hnd. unfold duplicates_check. simpl.
  case_decide as Hlen; [|done]. exfalso. apply Hlen. symmetry.
  apply length_set_NoDup. by apply without_role_NoDup.
Qed.

Lemma duplicates_check_raise data :
  ¬ NoDup (perm_key <$> data) →
  duplicates_check data
  = Raise (ValueError "There is duplicates in your permissions set.").
Proof.
  intros Hnd. unfold duplicates_check. simpl.
  case_decide as Hlen; [done|]. exfalso. apply Hnd.
  apply without_role_NoDup, length_set_NoDup.
  destruct (decide (length (elements (list_to_set (without_role data) : gset (gset pyatom)))
                    = length (without_role data))) as [->|Hne]; [done|].
  exfalso. apply Hne. symmetry. tauto.
Qed.

End PermissionFacts.

Section PermissionSetFacts.
Import Permissions.

Lemma set_acl_id s : set_acl (acl s) s = s.
Proof. by destruct s. Qed.

Lemma loop_body_run (remove_old : bool) e s :
  ((if remove_old
    then acl_delete_member (member e) (member_type e)
    else mret ()) ≫= λ _, acl_create e) s
  = (Ok (), set_acl (permission_step remove_old (acl s) e) s).
Proof. by destruct remove_old. Qed.

Lemma for_each_run (remove_old : bool) data s :
  for_each data (λ permission_args,
    (if remove_old
     then acl_delete_member (member permission_args) (member_type permission_args)
     else mret ()) ≫= λ _,
    acl_create permission_args) s
  = (Ok (), set_acl (foldl (permission_step remove_old) (acl s) data) s).
Proof.
  revert s. induction data as [|e data IH]; intros s; simpl.
  - by rewrite set_acl_id.
  - erewrite bind_ok by apply loop_body_run. by rewrite IH.
Qed.

Lemma permission_set_ok data remove_old s :
  NoDup (perm_key <$> data) →
  permission_set data remove_old s
  = (Ok (), set_acl (foldl (permission_step remove_old) (acl s) data) s).
Proof.
  intros Hnd. unfold permission_set. apply atomic_ok.
  erewrite bind_ok; [apply for_each_run|].
  unfold lift. by rewrite duplicates_check_ok.
Qed.

Lemma permission_set_raise data remove_old s :
  ¬ NoDup (perm_key <$> data) →
  permission_set data remove_old s
  = (Raise (ValueError "There is duplicates in your permissions set."), s).
Proof.
  intros Hnd. unfold permission_set. eapply atomic_raise, bind_raise.
  unfold lift. by rewrite duplicates_check_raise.
Qed.

(** [PUT] creates the entries one after the other. *)
Lemma foldl_create rows data :
  foldl (permission_step false) rows data = rows ++ data.
Proof.
  revert rows. induction data as [|e data IH]; intros rows; simpl.
  - by rewrite app_nil_r.
  - rewrite IH. unfold permission_step. by rewrite <- app_assoc.
Qed.

(** The [filter(...).delete()] of lines 126-129 keeps the rows of every
    other key. *)
Lemma delete_filter_key e (rows : list perm) :
  filter (λ p, ¬ (member p = member e ∧ member_type p = member_type e)) rows
  = filter (λ p, perm_key p ≠ perm_key e) rows.
Proof.
  apply list_filter_iff. intros p. unfold perm_key. split.
  - intros Hn Heq. apply Hn. by simplify_eq.
  - intros Hn [Hm Ht]. apply Hn. congruence.
Qed.

Lemma filter_key_fresh k (rows : list perm) :
  k ∉ perm_key <$> rows → filter (λ p, perm_key p ≠ k) rows = rows.
Proof.
  induction rows as [|p rows IH]; [done|].
  rewrite fmap_cons, not_elem_of_cons. intros [Hne Hnin].
  rewrite filter_cons_True by congruence. by rewrite IH.
Qed.

(** With one row per key, deleting a key that is there removes one row. *)
Lemma filter_key_length k (rows : list perm) :
  NoDup (perm_key <$> rows) →
  length (filter (λ p, perm_key p ≠ k) rows)
  + (if decide (k ∈ perm_key <$> rows) then 1 else 0) = length rows.
Proof.
  induction rows as [|p rows IH]; [done|].
  rewrite fmap_cons, NoDup_cons. intros [Hnin Hnd].
  destruct (decide (perm_key p = k)) as [<-|Hne].
  - rewrite filter_cons_False by (intros ?; congruence).
    rewrite filter_key_fresh by done.
    rewrite decide_True by left. simpl. lia.
  - rewrite filter_cons_True by done. simpl.
    specialize (IH Hnd).
    destruct (decide (k ∈ perm_key <$> rows)) as [Hin|Hin].
    + rewrite decide_True by (by right). lia.
    + rewrite decide_False; [lia|].
      rewrite not_elem_of_cons. split; [congruence|done].
Qed.

Lemma permission_step_keys rows e k :
  k ∈ perm_key <$> permission_step true rows e
  ↔ k = perm_key e ∨ k ∈ perm_key <$> rows.
Proof.
  unfold permission_step. rewrite delete_filter_key, fmap_app, elem_of_app.
  simpl. rewrite list_elem_of_singleton, !list_elem_of_fmap.
  setoid_rewrite list_elem_of_filter. split.
  - intros [(p & Hk & _ & Hp)|Hk]; [right; by exists p|by left].
  - intros [Hk|(p & Hk & Hp)]; [by right|]. subst k.
    destruct (decide (perm_key p = perm_key e)) as [Heq|Hne]; [by right|].
    left. by exists p.
Qed.

(** Deleting rows keeps the rows one per key. *)
Lemma filter_keys_NoDup (P : perm → Prop) `{∀ p, Decision (P p)} (rows : list perm) :
  NoDup (perm_key <$> rows) → NoDup (perm_key <$> filter P rows).
Proof.
  induction rows as [|p rows IH]; [constructor|].
  rewrite fmap_cons, NoDup_cons. intros [Hnin Hnd].
  rewrite filter_cons. case_decide; [|by apply IH].
  rewrite fmap_cons. apply NoDup_cons. split; [|by apply IH].
  intros Hin. apply Hnin. revert Hin. rewrite !list_elem_of_fmap.
  intros (q & Hq & Hin). apply list_elem_of_filter in Hin as [_ Hin]. by exists q.
Qed.

Lemma permission_step_NoDup rows e :
  NoDup (perm_key <$> rows) → NoDup (perm_key <$> permission_step true rows e).
Proof.
  intros Hnd. unfold permission_step. rewrite delete_filter_key, fmap_app.
  apply NoDup_app. split; [|split].
  - by apply filter_keys_NoDup.
  - intros k. rewrite list_elem_of_fmap. intros (p & Hk & Hp). subst k.
    apply list_elem_of_filter in Hp as [Hne _].
    simpl. rewrite list_elem_of_singleton. done.
  - simpl. apply NoDup_singleton.
Qed.

Lemma permission_step_length rows e :
  NoDup (perm_key <$> rows) →
  length (permission_step true rows e)
  = length rows + (if decide (perm_key e ∈ perm_key <$> rows) then 0 else 1).
Proof.
  intros Hnd. unfold permission_step.
  rewrite delete_filter_key, length_app. simpl.
  pose proof (filter_key_length (perm_key e) rows Hnd) as Hlen.
  destruct (decide (perm_key e ∈ perm_key <$> rows)); lia.
Qed.

End PermissionSetFacts.

Section MergeFacts.
Import Permissions.

Lemma filter_agree {T} (P Q : T → Prop) `{∀ x, Decision (P x)} `{∀ x, Decision (Q x)}
    (l : list T) :
  (∀ x, x ∈ l → P x ↔ Q x) → filter P l = filter Q l.
Proof.
  induction l as [|x l IH]; intros HPQ; [done|].
  rewrite !filter_cons.
  rewrite IH by (intros y Hy; apply HPQ; by right).
  destruct (decide (P x)) as [HP|HP], (decide (Q x)) as [HQ|HQ]; try done.
  - exfalso. apply HQ, HPQ; [left|done].
  - exfalso. apply HP, HPQ; [left|done].
Qed.

(** A duplicate-free batch merged into the rows: the rows of the keys it
    names go, and its entries follow in request order. *)
Lemma merge_rows data rows :
  NoDup (perm_key <$> data) →
  foldl (permission_step true) rows data
  = filter (λ p, perm_key p ∉ perm_key <$> data) rows ++ data.
Proof.
  revert rows. induction data as [|e data IH]; intros rows.
  - intros _. simpl. rewrite app_nil_r.
    induction rows as [|p rows IHr]; [done|].
    rewrite filter_cons_True by apply not_elem_of_nil. by rewrite <- IHr.
  - rewrite fmap_cons, NoDup_cons. intros [Hnin Hnd]. simpl.
    rewrite IH by done. unfold permission_step.
    rewrite delete_filter_key, filter_app, <- app_assoc. f_equal.
    + rewrite list_filter_filter. apply list_filter_iff. intros p.
      rewrite not_elem_of_cons. tauto.
    + by rewrite filter_cons_True, filter_nil by done.
Qed.

Lemma merge_NoDup data rows :
  NoDup (perm_key <$> rows) → NoDup (perm_key <$> data) →
  NoDup (perm_key <$> foldl (permission_step true) rows data).
Proof.
  revert rows. induction data as [|e data IH]; intros rows Hr; [done|].
  rewrite fmap_cons, NoDup_cons. intros [_ Hnd]. simpl.
  apply IH; [by apply permission_step_NoDup|done].
Qed.

Lemma merge_length data rows :
  NoDup (perm_key <$> rows) → NoDup (perm_key <$> data) →
  length (foldl (permission_step true) rows data)
  = length rows + length (filter (λ e, perm_key e ∉ perm_key <$> rows) data).
Proof.
  revert rows. induction data as [|e data IH]; intros rows Hr.
  - intros _. simpl. lia.
  - rewrite fmap_cons, NoDup_cons. intros [Hnin Hnd]. simpl.
    rewrite IH by (by try apply permission_step_NoDup).
    rewrite permission_step_length by done.
    rewrite (filter_agree (λ e0, perm_key e0 ∉ perm_key <$> permission_step true rows e)
                          (λ e0, perm_key e0 ∉ perm_key <$> rows)).
    + rewrite filter_cons.
      destruct (decide (perm_key e ∈ perm_key <$> rows)) as [Hin|Hin].
      * rewrite decide_False by tauto. lia.
      * rewrite decide_True by done. simpl. lia.
    + intros e' He'. rewrite permission_step_keys.
      assert (perm_key e' ≠ perm_key e).
      { intros Heq. apply Hnin. rewrite <- Heq. by apply list_elem_of_fmap_2. }
      tauto.
Qed.

End MergeFacts.

Section HandlerFacts.
Import Permissions.
Variable manageable_by : Entity → User → bool.
Variable filter_by_data : list perm → perm → bool.

Local Abbreviation permissions_body := (permissions_body manageable_by filter_by_data).
Local Abbreviation permissions := (permissions manageable_by filter_by_data).

(** Line 135-137: the guard runs first, on the rows as they are. *)
Lemma permissions_body_denied user request s :
  method request ≠ "GET" → manageable_by s user = false →
  permissions_body user request s = (Raise (PermissionDenied perms_msg), s).
Proof.
  intros Hm Hmb. unfold Permissions.permissions_body.
  db_step.
  rewrite (bool_decide_eq_true_2 _ Hm), Hmb. simpl.
  by erewrite bind_raise by reflexivity.
Qed.

Lemma permissions_get user request s :
  method request = "GET" →
  permissions user request s = (Ok (mkResponse (acl s) 200%Z), s).
Proof.
  intros Hm. unfold Permissions.permissions, Permissions.permissions_body.
  apply atomic_ok.
  db_step.
  rewrite Hm. simpl.
  db_step. simpl.
  db_step. done.
Qed.

Lemma permissions_post user data s :
  manageable_by s user = true → NoDup (perm_key <$> data) →
  permissions user (mkRequest "POST" data) s
  = (Ok (mkResponse (foldl (permission_step true) (acl s) data) 200%Z),
     set_acl (foldl (permission_step true) (acl s) data) s).
Proof.
  intros Hmb Hnd. unfold Permissions.permissions, Permissions.permissions_body.
  apply atomic_ok.
  db_step.
  rewrite Hmb, andb_false_r.
  db_step. simpl.
  erewrite bind_ok by (by apply permission_set_ok). done.
Qed.

Lemma permissions_put user data s :
  manageable_by s user = true → NoDup (perm_key <$> data) →
  permissions user (mkRequest "PUT" data) s
  = (Ok (mkResponse data 200%Z), set_acl data s).
Proof.
  intros Hmb Hnd. unfold Permissions.permissions, Permissions.permissions_body.
  apply atomic_ok.
  db_step.
  rewrite Hmb, andb_false_r.
  db_step. simpl.
  erewrite bind_ok.
  2:{ db_step. by apply permission_set_ok. }
  simpl. by rewrite foldl_create.
Qed.

Lemma permissions_duplicates user m data s :
  m = "POST" ∨ m = "PUT" →
  manageable_by s user = true → ¬ NoDup (perm_key <$> data) →
  permissions user (mkRequest m data) s
  = (Raise (ValueError "There is duplicates in your permissions set."), s).
Proof.
  intros Hm Hmb Hnd. unfold Permissions.permissions, Permissions.permissions_body.
  destruct Hm as [-> | ->]; eapply atomic_raise.
  - db_step.
    rewrite Hmb, andb_false_r.
    db_step.
    eapply bind_raise. simpl. by apply permission_set_raise.
  - db_step.
    rewrite Hmb, andb_false_r.
    db_step.
    eapply bind_raise. simpl.
    db_step. by apply permission_set_raise.
Qed.

(** A method the handler has no branch for only lists the entries. *)
Lemma permissions_other user m data s :
  manageable_by s user = true →
  m ≠ "DELETE" → m ≠ "POST" → m ≠ "PUT" →
  permissions user (mkRequest m data) s = (Ok (mkResponse (acl s) 200%Z), s).
Proof.
  intros Hmb Hdel Hpost Hput.
  unfold Permissions.permissions, Permissions.permissions_body.
  apply atomic_ok.
  db_step.
  rewrite Hmb, andb_false_r.
  db_step. simpl.
  rewrite !bool_decide_false by done.
  db_step. done.
Qed.

(** The handler keeps the rows one per member and member type, whatever
    the method, the user and the batch. *)
Lemma permissions_invariant user request s :
  NoDup (perm_key <$> acl s) →
  NoDup (perm_key <$> acl (snd (permissions user request s))).
Proof.
  intros Hs.
  destruct (permissions user request s) as [[resp|e] s'] eqn:Hrun; simpl;
    [|by apply atomic_rollback in Hrun as ->].
  destruct (decide (method request = "GET")) as [Hget|Hget].
  { rewrite permissions_get in Hrun by done. by simplify_eq. }
  destruct (manageable_by s user) eqn:Hmb.
  2:{ unfold Permissions.permissions in Hrun.
      erewrite atomic_raise in Hrun by (by apply permissions_body_denied).
      done. }
  destruct request as [m data]. simpl in Hget.
  destruct (decide (m = "DELETE")) as [->|Hdel].
  { vm_compute in Hrun. rewrite Hmb in Hrun. simplify_eq. simpl.
    by apply filter_keys_NoDup. }
  destruct (decide (NoDup (perm_key <$> data))) as [Hd|Hd].
  - destruct (decide (m = "POST")) as [->|Hpost].
    { rewrite permissions_post in Hrun by done. simplify_eq. simpl.
      by apply merge_NoDup. }
    destruct (decide (m = "PUT")) as [->|Hput].
    { rewrite permissions_put in Hrun by done. by simplify_eq. }
    rewrite permissions_other in Hrun by done. by simplify_eq.
  - destruct (decide (m = "POST")) as [->|Hpost].
    { rewrite permissions_duplicates in Hrun by (done || by left). done. }
    destruct (decide (m = "PUT")) as [->|Hput].
    { rewrite permissions_duplicates in Hrun by (done || by right). done. }
    rewrite permissions_other in Hrun by done. by simplify_eq.
Qed.

End HandlerFacts.

Section PermissionClaims.
Import Permissions.
Variable manageable_by : Entity → User → bool.
Variable filter_by_data : list perm → perm → bool.

Local Abbreviation permissions_body := (permissions_body manageable_by filter_by_data).
Local Abbreviation permissions := (permissions manageable_by filter_by_data).

Lemma same_key_not_NoDup (data : list perm) i j e1 e2 :
  i ≠ j → data !! i = Some e1 → data !! j = Some e2 →
  perm_key e1 = perm_key e2 → ¬ NoDup (perm_key <$> data).
Proof.
  intros Hij Hi Hj Hkey Hnd. apply Hij.
  eapply NoDup_lookup; [exact Hnd| |].
  - rewrite list_lookup_fmap, Hi. reflexivity.
  - rewrite list_lookup_fmap, Hj. simpl. by rewrite Hkey.
Qed.

(** C1 (as the code has it): for a user who may manage the entity, a POST
    or PUT whose batch holds two entries with the same member and member
    type raises the builtin [ValueError] of line 119, and the entity is
    left exactly as it was.  For PUT the body had already cleared the rows;
    the transaction around [permissions] is what brings them back. *)
Theorem C1_duplicate_batch_rejected user m data s i j e1 e2 :
  m = "POST" ∨ m = "PUT" →
  manageable_by s user = true →
  i ≠ j → data !! i = Some e1 → data !! j = Some e2 →
  member e1 = member e2 → member_type e1 = member_type e2 →
  permissions user (mkRequest m data) s
  = (Raise (ValueError "There is duplicates in your permissions set."), s)
  ∧ (m = "PUT" →
     permissions_body user (mkRequest m data) s
     = (Raise (ValueError "There is duplicates in your permissions set."),
        set_acl [] s)).
Proof.
  intros Hm Hmb Hij Hi Hj Hmem Hty.
  assert (¬ NoDup (perm_key <$> data)) as Hnd.
  { eapply same_key_not_NoDup; [exact Hij|exact Hi|exact Hj|].
    unfold perm_key. congruence. }
  split; [by apply permissions_duplicates|].
  intros ->. unfold Permissions.permissions_body.
  db_step.
  rewrite Hmb, andb_false_r.
  db_step.
  eapply bind_raise. simpl.
  db_step. by apply permission_set_raise.
Qed.

(** C2 (as the code has it): after a PUT of a duplicate-free batch [S] by a
    user who may manage the entity, the stored entries are exactly [S], in
    request order, the owner field is untouched, and the PUT's own answer
    and any later GET carry exactly [S]: the entries, and nothing about
    the owner. *)
Theorem C2_replace_then_list user reader request S s :
  manageable_by s user = true →
  NoDup (perm_key <$> S) →
  method request = "GET" →
  ∃ s', permissions user (mkRequest "PUT" S) s = (Ok (mkResponse S 200%Z), s')
        ∧ acl s' = S
        ∧ owner s' = owner s
        ∧ permissions reader request s' = (Ok (mkResponse S 200%Z), s').
Proof.
  intros Hmb Hnd Hget. exists (set_acl S s).
  split; [by apply permissions_put|].
  split; [done|]. split; [done|].
  by rewrite permissions_get.
Qed.

(** C3: a POST of a duplicate-free batch by a user who may manage the
    entity, on rows that hold one entry per member and member type.  Every
    incoming entry ends up stored, and is the only row of its key (the old
    row of that key is deleted before the new one is created, so the role
    is the incoming one); rows of other keys stay; and the number of rows
    grows by the number of incoming entries whose key was new: an entry
    for an existing key adds nothing, an entry for a new key adds one. *)
Theorem C3_merge_is_upsert user data s :
  manageable_by s user = true →
  NoDup (perm_key <$> acl s) →
  NoDup (perm_key <$> data) →
  ∃ s', permissions user (mkRequest "POST" data) s
        = (Ok (mkResponse (acl s') 200%Z), s')
        ∧ owner s' = owner s
        ∧ NoDup (perm_key <$> acl s')
        ∧ (∀ e, e ∈ data →
             e ∈ acl s' ∧ ∀ p, p ∈ acl s' → perm_key p = perm_key e → p = e)
        ∧ (∀ p, perm_key p ∉ perm_key <$> data → p ∈ acl s' ↔ p ∈ acl s)
        ∧ length (acl s')
          = length (acl s)
            + length (filter (λ e, perm_key e ∉ perm_key <$> acl s) data).
Proof.
  intros Hmb Hs Hd.
  exists (set_acl (foldl (permission_step true) (acl s) data) s).
  split; [by apply permissions_post|].
  split; [done|]. simpl.
  split; [by apply merge_NoDup|].
  pose proof (merge_NoDup data (acl s) Hs Hd) as Hnd'.
  rewrite merge_rows in * by done.
  split; [|split].
  - intros e He. split; [apply elem_of_app; by right|].
    intros p Hp Hkey.
    apply elem_of_app in Hp as [Hp|Hp].
    + apply list_elem_of_filter in Hp as [Hnin _]. exfalso. apply Hnin.
      rewrite Hkey. by apply list_elem_of_fmap_2.
    + revert Hd. clear -He Hp Hkey. induction data as [|d data IH]; [by inversion He|].
      rewrite fmap_cons, NoDup_cons. intros [Hnin Hnd].
      apply elem_of_cons in He as [->|He], Hp as [->|Hp]; try done.
      * exfalso. apply Hnin. rewrite <- Hkey. by apply list_elem_of_fmap_2.
      * exfalso. apply Hnin. rewrite Hkey. by apply list_elem_of_fmap_2.
      * by apply IH.
  - intros p Hp. rewrite elem_of_app, list_elem_of_filter. split.
    + intros [[_ ?]|Hin]; [done|]. exfalso. apply Hp. by apply list_elem_of_fmap_2.
    + intros Hin. left. done.
  - rewrite <- merge_rows by done. by apply merge_length.
Qed.

(** C9 (as the code has it): a GET is answered for every user, manager or
    not, with the stored entries, all of them and only them, and changes
    nothing; any other method from a user who may not manage the entity
    raises [PermissionDenied] at the guard of lines 135-137, before a
    single row is touched (so the body itself, not only the transaction
    around it, leaves the rows as they were). *)
Theorem C9_get_open_writes_guarded user request s :
  (method request = "GET" →
   permissions user request s = (Ok (mkResponse (acl s) 200%Z), s))
  ∧ (method request ≠ "GET" → manageable_by s user = false →
     permissions_body user request s = (Raise (PermissionDenied perms_msg), s)
     ∧ permissions user request s = (Raise (PermissionDenied perms_msg), s)).
Proof.
  split.
  - apply permissions_get.
  - intros Hm Hmb.
    pose proof (permissions_body_denied manageable_by filter_by_data user request s Hm Hmb) as Hb.
    split; [done|]. unfold Permissions.permissions. by erewrite atomic_raise.
Qed.

End PermissionClaims.

(** A decidable proposition over closed data, settled by evaluation. *)
Ltac decide_by_compute :=
  refine (bool_decide_unpack _ _); vm_compute; exact I.

Section PermissionSamples.
Import Permissions Samples.

Lemma C1_duplicate_batch_rejected_witness :
  permissions everyone_manages same_entry ann
    (mkRequest "PUT" [master3; executor3]) shared
  = (Raise (ValueError "There is duplicates in your permissions set."), shared)
  ∧ ("PUT" = "PUT" →
     permissions_body everyone_manages same_entry ann
       (mkRequest "PUT" [master3; executor3]) shared
     = (Raise (ValueError "There is duplicates in your permissions set."),
        set_acl [] shared)).
Proof.
  apply (C1_duplicate_batch_rejected everyone_manages same_entry ann "PUT"
           [master3; executor3] shared 0 1 master3 executor3);
    first [ by right | reflexivity | lia ].
Defined.

(** C1 as stated fails: the duplicate check raises [ValueError], which is
    not the framework's [ValidationError], and a user who may not manage
    the entity is turned away with [PermissionDenied] before the check. *)
Lemma C1_duplicates_raise_ValueError :
  permissions everyone_manages same_entry ann
    (mkRequest "POST" [master3; executor3]) shared
  = (Raise (ValueError "There is duplicates in your permissions set."), shared)
  ∧ (∀ detail,
       fst (permissions everyone_manages same_entry ann
              (mkRequest "POST" [master3; executor3]) shared)
       ≠ Raise (ValidationError detail))
  ∧ permissions nobody_manages same_entry ann
      (mkRequest "POST" [master3; executor3]) shared
    = (Raise (PermissionDenied perms_msg), shared).
Proof. split; [reflexivity|]. split; [intros detail; by vm_compute|reflexivity]. Qed.

Lemma C2_replace_then_list_witness :
  ∃ s', permissions everyone_manages same_entry ann
          (mkRequest "PUT" [master3; master2]) shared
        = (Ok (mkResponse [master3; master2] 200%Z), s')
        ∧ acl s' = [master3; master2]
        ∧ owner s' = owner shared
        ∧ permissions everyone_manages same_entry bob (mkRequest "GET" []) s'
          = (Ok (mkResponse [master3; master2] 200%Z), s').
Proof.
  apply (C2_replace_then_list everyone_manages same_entry ann bob
           (mkRequest "GET" []) [master3; master2] shared);
    [reflexivity | decide_by_compute | reflexivity].
Defined.

(** C2 as stated fails: the answer is the list of entries and carries no
    owner.  Here the owner is user 1; the answer to the PUT and to the GET
    after it is exactly the one entry of the request, no item of it is
    user 1's, and an entity owned by user 7 gets the same answer.  The
    owner is what the [owner] action answers. *)
Lemma C2_answer_has_no_owner :
  permissions everyone_manages same_entry ann (mkRequest "PUT" [master3]) shared
  = (Ok (mkResponse [master3] 200%Z), mkEntity 1 [master3])
  ∧ permissions everyone_manages same_entry bob (mkRequest "GET" [])
      (mkEntity 1 [master3])
    = (Ok (mkResponse [master3] 200%Z), mkEntity 1 [master3])
  ∧ (∀ p, p ∈ [master3] → member p ≠ 1%Z)
  ∧ fst (permissions everyone_manages same_entry bob (mkRequest "GET" [])
           (mkEntity 7 [master3]))
    = fst (permissions everyone_manages same_entry bob (mkRequest "GET" [])
             (mkEntity 1 [master3]))
  ∧ owner_get (mkEntity 1 [master3])
    = (Ok (mkResponse 1%Z 200%Z), mkEntity 1 [master3]).
Proof.
  split; [reflexivity|]. split; [reflexivity|]. split; [|by split].
  intros p Hp. apply list_elem_of_singleton in Hp as ->. by vm_compute.
Qed.

Lemma C3_merge_is_upsert_witness :
  ∃ s', permissions everyone_manages same_entry ann
          (mkRequest "POST" [master2; master3]) shared
        = (Ok (mkResponse (acl s') 200%Z), s')
        ∧ owner s' = owner shared
        ∧ NoDup (perm_key <$> acl s')
        ∧ (∀ e, e ∈ [master2; master3] →
             e ∈ acl s' ∧ ∀ p, p ∈ acl s' → perm_key p = perm_key e → p = e)
        ∧ (∀ p, perm_key p ∉ perm_key <$> [master2; master3] →
             p ∈ acl s' ↔ p ∈ acl shared)
        ∧ length (acl s')
          = length (acl shared)
            + length (filter (λ e, perm_key e ∉ perm_key <$> acl shared)
                        [master2; master3]).
Proof.
  apply (C3_merge_is_upsert everyone_manages same_entry ann
           [master2; master3] shared);
    [reflexivity | decide_by_compute
    | decide_by_compute].
Defined.

Lemma C9_get_open_writes_guarded_witness :
  (method (mkRequest "DELETE" [editor2]) = "GET" →
   permissions nobody_manages same_entry bob (mkRequest "DELETE" [editor2]) shared
   = (Ok (mkResponse (acl shared) 200%Z), shared))
  ∧ (method (mkRequest "DELETE" [editor2]) ≠ "GET" →
     nobody_manages shared bob = false →
     permissions_body nobody_manages same_entry bob
       (mkRequest "DELETE" [editor2]) shared
     = (Raise (PermissionDenied perms_msg), shared)
     ∧ permissions nobody_manages same_entry bob
         (mkRequest "DELETE" [editor2]) shared
       = (Raise (PermissionDenied perms_msg), shared)).
Proof.
  apply (C9_get_open_writes_guarded nobody_manages same_entry bob
           (mkRequest "DELETE" [editor2]) shared).
Defined.

(** C9 as stated fails on the owner: the answer to a GET is the list of
    entries and nothing else.  The entity is owned by user 1; a user who
    may not manage it gets its one entry, which is not user 1's, and would
    get the same answer were the owner user 7.  The owner is what the
    [owner] action answers. *)
Lemma C9_get_answer_has_no_owner :
  permissions nobody_manages same_entry bob (mkRequest "GET" []) shared
  = (Ok (mkResponse [editor2] 200%Z), shared)
  ∧ owner shared = 1%Z
  ∧ (∀ p, p ∈ [editor2] → member p ≠ 1%Z)
  ∧ fst (permissions nobody_manages same_entry bob (mkRequest "GET" [])
           (mkEntity 7 [editor2]))
    = fst (permissions nobody_manages same_entry bob (mkRequest "GET" []) shared)
  ∧ owner_get shared = (Ok (mkResponse 1%Z 200%Z), shared).
Proof.
  split; [reflexivity|]. split; [reflexivity|]. split; [|by split].
  intros p Hp. apply list_elem_of_singleton in Hp as ->. by vm_compute.
Qed.

End PermissionSamples.

(** ** Masking of hidden variables *)

Section MaskFacts.
Import Variables.

Lemma masked_lookup hv (vars : gmap string json) k :
  masked hv vars !! k
  = (λ v, if bool_decide (k ∈ hv) then JStr ENCRYPTED else v) <$> vars !! k.
Proof. unfold masked. rewrite map_lookup_imap. by destruct (vars !! k). Qed.




Lemma masked_nil (vars : gmap string json) : masked [] vars = vars.
Proof.
  apply map_eq. intros k. rewrite masked_lookup.
  rewrite bool_decide_false by apply not_elem_of_nil. by destruct (vars !! k).
Qed.

Lemma masked_empty hv : masked hv ∅ = ∅.
Proof. apply map_eq. intros k. by rewrite masked_lookup, lookup_empty. Qed.

(** One turn of the loop, then the rest, is the masking by the whole list. *)
Lemma masked_step k hv (vars : gmap string json) :
  masked hv (if bool_decide (is_Some (vars !! k))
             then <[k := JStr ENCRYPTED]> vars else vars)
  = masked (k :: hv) vars.
Proof.
  apply map_eq. intros j. rewrite !masked_lookup.
  destruct (decide (j = k)) as [->|Hne].
  - rewrite (bool_decide_true (k ∈ k :: hv)) by left.
    destruct (vars !! k) as [v|] eqn:Hk.
    + rewrite (bool_decide_true (is_Some (Some v))) by (by eexists).
      rewrite lookup_insert_eq. simpl. by case_bool_decide.
    + rewrite (bool_decide_false (is_Some None)) by (by intros [? ?]).
      by rewrite Hk.
  - assert (bool_decide (j ∈ k :: hv) = bool_decide (j ∈ hv)) as ->.
    { apply bool_decide_ext. rewrite elem_of_cons. tauto. }
    destruct (bool_decide (is_Some (vars !! k))); [|done].
    by rewrite lookup_insert_ne.
Qed.

(** The loop of lines 356-358 on a dictionary never raises and computes
    [masked]. *)
Lemma mask_loop_dict hv (vars : gmap string json) :
  mask_loop hv (JDict vars) = Ok (JDict (masked hv vars)).
Proof.
  revert vars. induction hv as [|k hv IH]; intros vars; simpl.
  - by rewrite masked_nil.
  - unfold mask_step. simpl. rewrite <- masked_step.
    case_bool_decide; apply IH.
Qed.

End MaskFacts.

Section VariableClaims.
Import Variables.


(** Without a variable map in the representation there is nothing to mask. *)
Lemma to_representation_no_vars instance_HIDDEN_VARS (rep : gmap string json)
    hidden_vars :
  rep !! "vars" = None →
  to_representation get_vars instance_HIDDEN_VARS rep hidden_vars = Ok rep.
Proof. intros Hvars. unfold to_representation. simpl. by rewrite Hvars. Qed.

End VariableClaims.


(** ** Templates *)

Section TemplateFacts.
Import Template.

Lemma set_opts_vars_shape rep hv :
  option_shape rep → set_opts_vars rep hv = Ok (masked_option hv rep).
Proof.
  destruct rep as [| | | | |d]; try done. simpl.
  unfold set_opts_vars. simpl.
  destruct (d !! "vars") as [[| | | | |v]|] eqn:Hv; simpl;
    try (by intros ->).
  - done.
  - intros _. case_bool_decide as Hempty; simpl.
    + subst v. rewrite masked_empty. by rewrite insert_id.
    + by rewrite mask_loop_dict.
  - done.
Qed.

(** The loop of lines 535-536 reassigns every option to its masked form. *)
Lemma repr_options_fold hv (options acc : gmap string json) :
  (∀ name rep, options !! name = Some rep → option_shape rep) →
  map_fold
    (λ name rep (acc : result (gmap string json)),
       acc ≫= λ o, set_opts_vars rep hv ≫= λ rep', mret (<[name := rep']> o))
    (mret acc) options
  = Ok ((masked_option hv <$> options) ∪ acc).
Proof.
  induction options as [|name rep options Hname Hfold IH] using map_first_key_ind.
  - intros _. rewrite map_fold_empty, fmap_empty. by rewrite (left_id_L ∅ (∪)).
  - intros Hshape. rewrite map_fold_insert_first_key by done.
    rewrite IH.
    + simpl. rewrite set_opts_vars_shape; simpl.
      * by rewrite fmap_insert, insert_union_l.
      * apply (Hshape name). by rewrite lookup_insert_eq.
    + intros name' rep' Hl. apply (Hshape name').
      rewrite lookup_insert_ne; [done|]. intros ->. congruence.
Qed.

Lemma repr_options_run instance (data options : gmap string json)
    (hv : list string) :
  data !! "options" = Some (JDict options) →
  (∀ name rep, options !! name = Some rep → option_shape rep) →
  repr_options instance data (Some hv)
  = Ok (<["options" := JDict (masked_option hv <$> options)]> data).
Proof.
  intros Hopt Hshape. unfold repr_options. rewrite Hopt. simpl.
  rewrite repr_options_fold by done. simpl.
  do 3 f_equal. apply map_eq. intros name.
  rewrite lookup_union, lookup_fmap. by destruct (options !! name).
Qed.

End TemplateFacts.

Section TemplateClaims.
Import Template.
Variable PeriodicTask_HIDDEN_VARS : list string.

Local Abbreviation hv := PeriodicTask_HIDDEN_VARS.
Local Abbreviation to_representation := (to_representation PeriodicTask_HIDDEN_VARS).

Lemma to_representation_rendered instance (data_d base_vars options : gmap string json) :
  kind instance ∈ ["Task"; "Module"] →
  rendered instance !! "data" = Some (JDict data_d) →
  data_d !! "vars" = Some (JDict base_vars) →
  rendered instance !! "options" = Some (JDict options) →
  (∀ name rep, options !! name = Some rep → option_shape rep) →
  to_representation instance
  = Ok (<["options" := JDict (masked_option hv <$> options)]>
          (<["data" := JDict (<["vars" := JDict (Variables.masked hv base_vars)]> data_d)]>
             (rendered instance))).
Proof.
  intros Hkind Hdata Hvars Hopt Hshape.
  unfold Template.to_representation. rewrite bool_decide_true by done.
  unfold Variables.to_representation. simpl.
  rewrite Hdata. simpl. rewrite Hvars. simpl.
  rewrite mask_loop_dict. simpl.
  apply repr_options_run; [|done].
  by rewrite lookup_insert_ne.
Qed.

Lemma to_representation_other_kind instance :
  kind instance ∉ ["Task"; "Module"] → to_representation instance = Ok ∅.
Proof.
  intros Hkind. unfold Template.to_representation.
  by rewrite bool_decide_false.
Qed.


(** C10: a template whose kind is neither ["Task"] nor ["Module"] is
    rendered as the empty map of line 539: no field, no variable and no
    option appears. *)
Theorem C10_other_kinds_render_empty instance :
  kind instance ≠ "Task" → kind instance ≠ "Module" →
  to_representation instance = Ok ∅.
Proof.
  intros HT HM. apply to_representation_other_kind.
  rewrite !not_elem_of_cons. split; [done|]. split; [done|]. apply not_elem_of_nil.
Qed.

End TemplateClaims.

Section TemplateSamples.
Import Template Samples.


(** The sample template, rendered: both secrets are masked, the other
    values are as stored. *)
Example deploy_rendering :
  to_representation hidden_keys deploy
  = Ok (<["name" := JStr "deploy"]>
       (<["data" := JDict (<["playbook" := JStr "site.yml"]>
                           {["vars" := JDict (<["private-key" := JStr "[~~ENCRYPTED~~]"]>
                                               {["limit" := JStr "web"]})]})]>
        {["options" :=
            JDict (<["nightly" :=
                       JDict {["vars" := JDict (<["private-key" := JStr "[~~ENCRYPTED~~]"]>
                                                 {["forks" := JInt 2]})]}]>
                     {["plain" := JDict {["playbook" := JStr "other.yml"]}]})]})).
Proof. by vm_compute. Qed.

Lemma C10_other_kinds_render_empty_witness :
  to_representation hidden_keys host_template = Ok ∅.
Proof.
  apply (C10_other_kinds_render_empty hidden_keys host_template);
    by vm_compute.
Defined.

End TemplateSamples.

(** ** Periodic tasks *)

Section PeriodictaskClaims.
Import Periodictask.
Variable defaults : Row.
Variable api_pre_save api_post_save : Row → User → result ().
Variable user : User.

Local Abbreviation create := (create defaults api_pre_save api_post_save user).
Local Abbreviation update := (update api_pre_save api_post_save user).
Local Abbreviation saved_unless_refused :=
  (Signal.saved_unless_refused api_pre_save api_post_save user).

Lemma prepare_template (kw : Data) t :
  kind kw = Some "TEMPLATE" → template kw = Some t →
  prepare kw = Ok {| kind := Some "TEMPLATE";
                     template := Some t;
                     project := Some (template_project t);
                     inventory := Some "";
                     mode := Some "";
                     owner := owner kw;
                     rest := rest kw |}.
Proof.
  intros Hk Ht. unfold prepare. rewrite bool_decide_true by done.
  by rewrite Ht, Hk.
Qed.

(** C4 (as the code has it): a write of a periodic task whose validated
    data has kind TEMPLATE and a template is not turned down for naming an
    inventory or a mode.  Lines 439-440 overwrite both with the empty
    string and line 438 takes the project from the template, so the task
    that [create] and [update] save has kind TEMPLATE, empty inventory and
    empty mode, whatever the request supplied; the save stands unless a
    signal receiver refuses it. *)
Theorem C4_template_write_blanks_inventory_and_mode (validated_data : Data) t :
  kind validated_data = Some "TEMPLATE" →
  template validated_data = Some t →
  (∀ before, ∃ row,
     create validated_data before = saved_unless_refused row before (Some row)
     ∧ row_kind row = "TEMPLATE" ∧ row_inventory row = "" ∧ row_mode row = ""
     ∧ row_project row = Some (template_project t))
  ∧ (∀ stored, ∃ row,
       update validated_data stored = saved_unless_refused row stored row
       ∧ row_kind row = "TEMPLATE" ∧ row_inventory row = "" ∧ row_mode row = ""
       ∧ row_project row = Some (template_project t)).
Proof.
  intros Hk Ht. split.
  - intros before. eexists. split.
    { unfold Periodictask.create, do_with_vars_create.
      apply atomic_saved_unless_refused.
      erewrite bind_ok; [|unfold lift; by erewrite prepare_template].
      unfold permissions_create, signal_create.
      by apply do_with_vars_signals. }
    done.
  - intros stored. eexists. split.
    { unfold Periodictask.update, Variables.update.
      db_step. simpl.
      unfold do_with_vars_update. apply atomic_saved_unless_refused.
      erewrite bind_ok; [|unfold lift; by erewrite prepare_template].
      unfold Variables.signal_update.
      by apply do_with_vars_signals. }
    done.
Qed.

End PeriodictaskClaims.

Section PeriodictaskSamples.
Import Periodictask Samples.

Lemma C4_template_write_blanks_inventory_and_mode_witness :
  (∀ before, ∃ row,
     create blank_task accept accept ann template_task before
     = Signal.saved_unless_refused accept accept ann row before (Some row)
     ∧ row_kind row = "TEMPLATE" ∧ row_inventory row = "" ∧ row_mode row = ""
     ∧ row_project row = Some (template_project template9))
  ∧ (∀ stored, ∃ row,
       update accept accept ann template_task stored
       = Signal.saved_unless_refused accept accept ann row stored row
       ∧ row_kind row = "TEMPLATE" ∧ row_inventory row = "" ∧ row_mode row = ""
       ∧ row_project row = Some (template_project template9)).
Proof.
  apply (C4_template_write_blanks_inventory_and_mode blank_task accept accept ann
           template_task template9);
    reflexivity.
Defined.

(** C4 as stated fails: a TEMPLATE request that names inventory ["5"] and
    mode ["shell"] is accepted, by [create] and by [update] alike; what is
    stored has both fields empty. *)
Lemma C4_template_write_is_accepted :
  inventory template_task = Some "5"
  ∧ mode template_task = Some "shell"
  ∧ create blank_task accept accept ann template_task None
    = (Ok (mkRow "TEMPLATE" (Some 9%Z) (Some 3%Z) "" "" (Some 5%Z)
             {["name" := JStr "nightly"]}),
       Some (mkRow "TEMPLATE" (Some 9%Z) (Some 3%Z) "" "" (Some 5%Z)
               {["name" := JStr "nightly"]}))
  ∧ update accept accept ann template_task stored_task
    = (Ok (mkRow "TEMPLATE" (Some 9%Z) (Some 3%Z) "" "" (Some 1%Z)
             {["name" := JStr "nightly"]}),
       mkRow "TEMPLATE" (Some 9%Z) (Some 3%Z) "" "" (Some 1%Z)
         {["name" := JStr "nightly"]})
  ∧ (∀ e, fst (create blank_task accept accept ann template_task None) ≠ Raise e)
  ∧ (∀ e, fst (update accept accept ann template_task stored_task) ≠ Raise e).
Proof.
  split; [reflexivity|]. split; [reflexivity|].
  split; [by vm_compute|]. split; [by vm_compute|].
  split; intros e; by vm_compute.
Qed.

End PeriodictaskSamples.

(** ** Groups *)

Section GroupClaims.
Import Group.
Variable api_pre_save api_post_save : GroupRow → User → result ().
Variable user : User.

Local Abbreviation update := (update api_pre_save api_post_save user).
Local Abbreviation saved_unless_refused :=
  (Signal.saved_unless_refused api_pre_save api_post_save user).

(** C7 (as the code has it): an update of a group that carries a
    [children] different from the stored one raises the framework's
    [ValidationError] (status 400) at line 342, before anything is
    written: the stored group, its hosts and its subgroups included, is
    what it was.  An update that leaves [children] out, or repeats the
    stored value, passes the test and goes on to the save; the row it
    saves has the stored [children], hosts and subgroups. *)
Theorem C7_children_change_refused (validated_data : GroupData) (g : GroupRow) :
  (∀ c, vd_children validated_data = Some c → c ≠ children g →
     update validated_data g
     = (Raise (ValidationError "Children not allowed to update."), g)
     ∧ status_code (ValidationError "Children not allowed to update.") = Some 400%Z)
  ∧ (vd_children validated_data = None
     ∨ vd_children validated_data = Some (children g) →
     ∃ g', update validated_data g = saved_unless_refused g' g g'
           ∧ children g' = children g
           ∧ hosts g' = hosts g
           ∧ groups g' = groups g).
Proof.
  split.
  - intros c Hc Hne. split; [|done].
    unfold Group.update, Variables.update.
    db_step. simpl. rewrite Hc. simpl.
    by rewrite bool_decide_true.
  - intros Hsame. exists (model_update validated_data g).
    split.
    + unfold Group.update, Variables.update.
      db_step. simpl.
      rewrite bool_decide_false.
      * unfold do_with_vars_update, Variables.signal_update.
        by apply do_with_vars_signals.
      * intros Hne. apply Hne. by destruct Hsame as [-> | ->].
    + unfold model_update. simpl. by destruct Hsame as [-> | ->].
Qed.

End GroupClaims.

Section GroupSamples.
Import Group Samples.

Lemma C7_children_change_refused_witness :
  (update accept accept ann make_parent web
   = (Raise (ValidationError "Children not allowed to update."), web)
   ∧ status_code (ValidationError "Children not allowed to update.") = Some 400%Z)
  ∧ ∃ g', update accept accept ann rename web
          = Signal.saved_unless_refused accept accept ann g' web g'
          ∧ children g' = children web
          ∧ hosts g' = hosts web
          ∧ groups g' = groups web.
Proof.
  split.
  - apply (proj1 (C7_children_change_refused accept accept ann make_parent web) true);
      [reflexivity | by vm_compute].
  - apply (proj2 (C7_children_change_refused accept accept ann rename web)).
    right. reflexivity.
Defined.

(** C7 as stated fails on the error: the update that flips [children] is
    refused with the framework's [ValidationError], whose status is 400;
    it is not the 409 class [OneGroupSerializer.ValidationException] of
    lines 619-620. *)
Lemma C7_refusal_is_not_a_conflict :
  children web = false
  ∧ vd_children make_parent = Some true
  ∧ update accept accept ann make_parent web
    = (Raise (ValidationError "Children not allowed to update."), web)
  ∧ (∀ detail, fst (update accept accept ann make_parent web)
               ≠ Raise (ValidationException detail))
  ∧ (∀ e, fst (update accept accept ann make_parent web) = Raise e →
          status_code e ≠ Some 409%Z).
Proof.
  split; [reflexivity|]. split; [reflexivity|]. split; [reflexivity|].
  split.
  - intros detail. by vm_compute.
  - intros e. vm_compute. intros [= <-]. done.
Qed.

End GroupSamples.

(** ** Execution *)

Section ExecutionClaims.
Import Project.
Variable int_of_str : string → option Z.
Variable py_str : json → string.
Variable format_inventory : inventory_arg → string.
Variable inventories : gmap Z InventoryRow.
Variable viewable_by : InventoryRow → User → bool.
Variable execute : ExecCall → result Z.

Local Abbreviation _execution :=
  (_execution int_of_str py_str format_inventory inventories viewable_by execute).
Local Abbreviation dispatch := (dispatch py_str format_inventory execute).
Local Abbreviation py_int := (py_int int_of_str).


End ExecutionClaims.

Section ExecutionSamples.
Import Project Samples.


End ExecutionSamples.

(** * Further properties of the serializers *)

(** ** The permissions action *)

Section PermissionExtras.
Import Permissions.
Variable manageable_by : Entity → User → bool.
Variable filter_by_data : list perm → perm → bool.

Local Abbreviation permissions := (permissions manageable_by filter_by_data).

(** Whatever the request, the rows afterwards are the entity's rows with
    some list of entries in place of the old one: the owner is out of the
    handler's reach. *)
Lemma permissions_writes_acl_only user request s :
  ∃ rows, snd (permissions user request s) = set_acl rows s.
Proof.
  destruct (permissions user request s) as [[resp|e] s'] eqn:Hrun; simpl.
  2:{ exists (acl s). apply atomic_rollback in Hrun as ->. by rewrite set_acl_id. }
  destruct (decide (method request = "GET")) as [Hget|Hget].
  { rewrite permissions_get in Hrun by done. exists (acl s).
    rewrite set_acl_id. by simplify_eq. }
  destruct (manageable_by s user) eqn:Hmb.
  2:{ unfold Permissions.permissions in Hrun.
      erewrite atomic_raise in Hrun by (by apply permissions_body_denied).
      done. }
  destruct request as [m data]. simpl in Hget.
  destruct (decide (m = "DELETE")) as [->|Hdel].
  { vm_compute in Hrun. rewrite Hmb in Hrun. simplify_eq. by eexists. }
  destruct (decide (m = "POST")) as [->|Hpost].
  { destruct (decide (NoDup (perm_key <$> data))) as [Hd|Hd].
    - rewrite permissions_post in Hrun by done. simplify_eq. by eexists.
    - rewrite permissions_duplicates in Hrun by (done || by left). done. }
  destruct (decide (m = "PUT")) as [->|Hput].
  { destruct (decide (NoDup (perm_key <$> data))) as [Hd|Hd].
    - rewrite permissions_put in Hrun by done. simplify_eq. by eexists.
    - rewrite permissions_duplicates in Hrun by (done || by right). done. }
  rewrite permissions_other in Hrun by done.
  exists (acl s). rewrite set_acl_id. by simplify_eq.
Qed.

Lemma filter_keys_all_named (keys : list (Z * string)) (data : list perm) :
  (∀ e, e ∈ data → perm_key e ∈ keys) →
  filter (λ p, perm_key p ∉ keys) data = [].
Proof.
  induction data as [|e data IH]; intros Hin; [done|].
  rewrite filter_cons_False.
  - apply IH. intros p Hp. apply Hin. by right.
  - intros Hn. apply Hn, Hin. left.
Qed.

(** X1: the duplicate check of lines 116-119 is exact.  It passes when no
    two entries of the batch share member and member type, and raises
    [ValueError] otherwise; the role plays no part, so an entry repeated
    word for word is refused too, and the same member id once as a user
    and once as a team is accepted. *)
Theorem X1_duplicates_check_exact (data : list perm) :
  duplicates_check data
  = (if decide (NoDup (perm_key <$> data))
     then Ok ()
     else Raise (ValueError "There is duplicates in your permissions set."))
  ∧ (∀ e, duplicates_check [e; e]
          = Raise (ValueError "There is duplicates in your permissions set."))
  ∧ (∀ m r1 r2, duplicates_check [Perm m "user" r1; Perm m "team" r2] = Ok ()).
Proof.
  split; [|split].
  - case_decide; [by apply duplicates_check_ok|by apply duplicates_check_raise].
  - intros e. apply duplicates_check_raise. simpl.
    rewrite NoDup_cons. intros [Hnin _]. apply Hnin. left.
  - intros m r1 r2. apply duplicates_check_ok. simpl.
    apply NoDup_cons. split; [|apply NoDup_singleton].
    rewrite list_elem_of_singleton. unfold perm_key. simpl. congruence.
Qed.

(** X2: every request keeps the entity well formed.  If the rows hold at
    most one entry per member and member type before the call, they do so
    after it, whatever the method, the user and the batch, whether the
    call answers or raises; and the owner is the same. *)
Theorem X2_every_request_keeps_one_entry_per_member user request s :
  NoDup (perm_key <$> acl s) →
  NoDup (perm_key <$> acl (snd (permissions user request s)))
  ∧ owner (snd (permissions user request s)) = owner s.
Proof.
  intros Hs. split; [by apply permissions_invariant|].
  destruct (permissions_writes_acl_only user request s) as [rows ->]. done.
Qed.

(** X3: a merge is idempotent.  A duplicate-free batch POSTed a second
    time, by a user who may still manage the entity, gets the answer of
    the first POST and leaves the rows as the first POST left them. *)
Theorem X3_merge_twice_is_merge_once user data s :
  manageable_by s user = true →
  NoDup (perm_key <$> data) →
  manageable_by (snd (permissions user (mkRequest "POST" data) s)) user = true →
  permissions user (mkRequest "POST" data)
    (snd (permissions user (mkRequest "POST" data) s))
  = permissions user (mkRequest "POST" data) s.
Proof.
  intros Hmb Hd. rewrite (permissions_post _ _ user data s) by done. simpl.
  intros Hmb'. rewrite permissions_post by done. simpl.
  rewrite !merge_rows by done.
  assert (filter (λ p, perm_key p ∉ perm_key <$> data)
            (filter (λ p, perm_key p ∉ perm_key <$> data) (acl s) ++ data)
          = filter (λ p, perm_key p ∉ perm_key <$> data) (acl s)) as ->; [|done].
  rewrite filter_app, list_filter_filter.
  rewrite filter_keys_all_named by (intros e; apply list_elem_of_fmap_2).
  rewrite app_nil_r. apply list_filter_iff. tauto.
Qed.

(** X4: the empty batch.  From a user who may manage the entity a PUT of
    no entries removes every entry and a POST of no entries changes
    nothing; neither raises. *)
Theorem X4_empty_batch user s :
  manageable_by s user = true →
  permissions user (mkRequest "PUT" []) s = (Ok (mkResponse [] 200%Z), set_acl [] s)
  ∧ permissions user (mkRequest "POST" []) s = (Ok (mkResponse (acl s) 200%Z), s).
Proof.
  intros Hmb. split.
  - apply permissions_put; [done|constructor].
  - rewrite permissions_post by (done || constructor). simpl.
    by rewrite set_acl_id.
Qed.

Lemma permissions_delete user data s :
  manageable_by s user = true →
  permissions user (mkRequest "DELETE" data) s
  = (Ok (mkResponse (filter (λ p, filter_by_data data p = false) (acl s)) 200%Z),
     set_acl (filter (λ p, filter_by_data data p = false) (acl s)) s).
Proof.
  intros Hmb. unfold Permissions.permissions, Permissions.permissions_body.
  apply atomic_ok. db_step. rewrite Hmb, andb_false_r. db_step. simpl.
  db_step. done.
Qed.

(** X5: DELETE.  From a user who may manage the entity it removes the
    rows [filter_by_data] selects and no other, keeps the order of the
    rest, answers with what is left, and runs no duplicate check on its
    data. *)
Theorem X5_delete_removes_the_selected_rows user data s :
  manageable_by s user = true →
  ∃ rows,
    permissions user (mkRequest "DELETE" data) s
    = (Ok (mkResponse rows 200%Z), set_acl rows s)
    ∧ rows `sublist_of` acl s
    ∧ (∀ p, p ∈ rows ↔ p ∈ acl s ∧ filter_by_data data p = false).
Proof.
  intros Hmb.
  exists (filter (λ p, filter_by_data data p = false) (acl s)).
  split; [|split].
  - by apply permissions_delete.
  - apply sublist_filter.
  - intros p. rewrite list_elem_of_filter. tauto.
Qed.

(** X6: a method the handler has no branch for (PATCH, HEAD, ...) from a
    user who may manage the entity is answered like a GET: the entries
    are listed and nothing is written. *)
Theorem X6_unknown_method_only_lists user request s :
  manageable_by s user = true →
  method request ≠ "DELETE" → method request ≠ "POST" → method request ≠ "PUT" →
  permissions user request s = (Ok (mkResponse (acl s) 200%Z), s).
Proof.
  intros Hmb Hd Hpost Hput. destruct request as [m data].
  by apply permissions_other.
Qed.

(** X7: on an entity without entries POST and PUT are the same request:
    same answer, same rows, for every user and every batch (both are
    refused for a user who may not manage, both raise on a batch with a
    repeated member, and both store the batch as it came). *)
Theorem X7_merge_into_nothing_is_replace user data s :
  acl s = [] →
  permissions user (mkRequest "POST" data) s
  = permissions user (mkRequest "PUT" data) s.
Proof.
  intros Hempty.
  destruct (manageable_by s user) eqn:Hmb.
  - destruct (decide (NoDup (perm_key <$> data))) as [Hd|Hd].
    + rewrite permissions_post, permissions_put by done.
      rewrite merge_rows, Hempty by done. done.
    + rewrite (permissions_duplicates _ _ user "POST") by (done || by left).
      by rewrite (permissions_duplicates _ _ user "PUT") by (done || by right).
  - unfold Permissions.permissions.
    by erewrite !atomic_raise by (by apply permissions_body_denied).
Qed.

End PermissionExtras.

Section PermissionExtraSamples.
Import Permissions Samples.

Lemma X2_every_request_keeps_one_entry_per_member_witness :
  NoDup (perm_key <$> acl (snd (permissions everyone_manages same_entry ann
                                  (mkRequest "POST" [master2; master3]) shared)))
  ∧ owner (snd (permissions everyone_manages same_entry ann
                  (mkRequest "POST" [master2; master3]) shared))
    = owner shared.
Proof.
  apply (X2_every_request_keeps_one_entry_per_member everyone_manages same_entry
           ann (mkRequest "POST" [master2; master3]) shared).
  decide_by_compute.
Defined.

Lemma X3_merge_twice_is_merge_once_witness :
  permissions everyone_manages same_entry ann (mkRequest "POST" [master2; master3])
    (snd (permissions everyone_manages same_entry ann
            (mkRequest "POST" [master2; master3]) shared))
  = permissions everyone_manages same_entry ann
      (mkRequest "POST" [master2; master3]) shared.
Proof.
  apply (X3_merge_twice_is_merge_once everyone_manages same_entry ann
           [master2; master3] shared);
    [reflexivity | decide_by_compute | reflexivity].
Defined.

Lemma X4_empty_batch_witness :
  permissions everyone_manages same_entry ann (mkRequest "PUT" []) shared
  = (Ok (mkResponse [] 200%Z), set_acl [] shared)
  ∧ permissions everyone_manages same_entry ann (mkRequest "POST" []) shared
    = (Ok (mkResponse (acl shared) 200%Z), shared).
Proof.
  apply (X4_empty_batch everyone_manages same_entry ann shared). reflexivity.
Defined.

Lemma X5_delete_removes_the_selected_rows_witness :
  ∃ rows,
    permissions everyone_manages same_entry ann
      (mkRequest "DELETE" [editor2]) shared
    = (Ok (mkResponse rows 200%Z), set_acl rows shared)
    ∧ rows `sublist_of` acl shared
    ∧ (∀ p, p ∈ rows ↔ p ∈ acl shared ∧ same_entry [editor2] p = false).
Proof.
  apply (X5_delete_removes_the_selected_rows everyone_manages same_entry ann
           [editor2] shared).
  reflexivity.
Defined.

Lemma X6_unknown_method_only_lists_witness :
  permissions everyone_manages same_entry ann (mkRequest "PATCH" [master3]) shared
  = (Ok (mkResponse (acl shared) 200%Z), shared).
Proof.
  apply (X6_unknown_method_only_lists everyone_manages same_entry ann
           (mkRequest "PATCH" [master3]) shared);
    [reflexivity | by vm_compute | by vm_compute | by vm_compute].
Defined.

Lemma X7_merge_into_nothing_is_replace_witness :
  permissions everyone_manages same_entry ann
    (mkRequest "POST" [master2; master3]) (mkEntity 1 [])
  = permissions everyone_manages same_entry ann
      (mkRequest "PUT" [master2; master3]) (mkEntity 1 []).
Proof.
  apply (X7_merge_into_nothing_is_replace everyone_manages same_entry ann
           [master2; master3] (mkEntity 1 [])).
  reflexivity.
Defined.

End PermissionExtraSamples.

(** ** The owner action *)

Section OwnerExtras.
Import Permissions Owner.
Variable owned_by : Entity → User → bool.
Variable set_owner : User → Entity → Entity.
Variable users : gmap Z User.

Local Abbreviation owner_action := (owner_action owned_by set_owner users).

(** X8: the owner action.  GET answers the owner's id to every user and
    writes nothing.  PUT from a user who does not own the entity raises
    [PermissionDenied] and writes nothing, whether or not the new owner
    exists; PUT from the owner for a primary key no user has raises
    [DoesNotExist] and writes nothing; PUT from the owner for an existing
    user hands that user to [set_owner].  Any other method answers [None]
    and writes nothing, even for a user who owns nothing. *)
Theorem X8_owner_action (user : User) (pk : Z) (s : Entity) :
  owner_action user "GET" pk s = (Ok (Some (mkResponse (JInt (owner s)) 200%Z)), s)
  ∧ (owned_by s user = false →
     owner_action user "PUT" pk s = (Raise (PermissionDenied perms_msg), s))
  ∧ (owned_by s user = true → users !! pk = None →
     owner_action user "PUT" pk s = (Raise DoesNotExist, s))
  ∧ (∀ new_owner, owned_by s user = true → users !! pk = Some new_owner →
     owner_action user "PUT" pk s
     = (Ok (Some (mkResponse (JStr "Owner changed") 200%Z)), set_owner new_owner s))
  ∧ (∀ m, m ≠ "GET" → m ≠ "PUT" → owner_action user m pk s = (Ok None, s)).
Proof.
  split; [done|]. split; [|split; [|split]].
  - intros Hown. unfold Owner.owner_action, _change_owner. simpl.
    eapply bind_raise. db_step. rewrite Hown. simpl.
    by eapply bind_raise.
  - intros Hown Hpk. unfold Owner.owner_action, _change_owner. simpl.
    eapply bind_raise. db_step. rewrite Hown. simpl. db_step.
    eapply bind_raise. unfold lift, User_objects_get. by rewrite Hpk.
  - intros new_owner Hown Hpk. unfold Owner.owner_action, _change_owner. simpl.
    erewrite bind_ok; [reflexivity|].
    db_step. rewrite Hown. simpl. db_step.
    erewrite bind_ok; [|unfold lift, User_objects_get; by rewrite Hpk].
    db_step. done.
  - intros m Hget Hput. unfold Owner.owner_action.
    by rewrite !bool_decide_false by done.
Qed.

End OwnerExtras.

Lemma X8_owner_action_witness :
  Owner.owner_action MoreSamples.owner_is_user MoreSamples.write_owner
    MoreSamples.user_table Samples.bob "GET" 5 Samples.shared
  = (Ok (Some (mkResponse (JInt 1) 200%Z)), Samples.shared)
  ∧ Owner.owner_action MoreSamples.owner_is_user MoreSamples.write_owner
      MoreSamples.user_table Samples.bob "PUT" 5 Samples.shared
    = (Raise (PermissionDenied Permissions.perms_msg), Samples.shared)
  ∧ Owner.owner_action MoreSamples.owner_is_user MoreSamples.write_owner
      MoreSamples.user_table MoreSamples.root "PUT" 8 Samples.shared
    = (Raise DoesNotExist, Samples.shared)
  ∧ Owner.owner_action MoreSamples.owner_is_user MoreSamples.write_owner
      MoreSamples.user_table MoreSamples.root "PUT" 5 Samples.shared
    = (Ok (Some (mkResponse (JStr "Owner changed") 200%Z)),
       Permissions.mkEntity 5 [Samples.editor2])
  ∧ Owner.owner_action MoreSamples.owner_is_user MoreSamples.write_owner
      MoreSamples.user_table Samples.bob "DELETE" 5 Samples.shared
    = (Ok None, Samples.shared).
Proof.
  pose proof (X8_owner_action MoreSamples.owner_is_user MoreSamples.write_owner
                MoreSamples.user_table Samples.bob 5 Samples.shared)
    as (Hget & Hdenied & _ & _ & Hother).
  pose proof (X8_owner_action MoreSamples.owner_is_user MoreSamples.write_owner
                MoreSamples.user_table MoreSamples.root 8 Samples.shared)
    as (_ & _ & Hmissing & _).
  pose proof (X8_owner_action MoreSamples.owner_is_user MoreSamples.write_owner
                MoreSamples.user_table MoreSamples.root 5 Samples.shared)
    as (_ & _ & _ & Hchange & _).
  split; [exact Hget|].
  split; [apply Hdenied; reflexivity|].
  split; [apply Hmissing; reflexivity|].
  split; [apply (Hchange Samples.ann); reflexivity|].
  apply Hother; by vm_compute.
Defined.

(** ** Save signals *)

Section SignalExtras.
Context {S Row : Type}.
Variable api_pre_save api_post_save : Row → User → result ().
Variable user : User.

Local Abbreviation with_signals :=
  (Signal.with_signals (S := S) api_pre_save api_post_save user).

(** X9: the two transactions of [with_signals] (lines 64-72), for a
    method that saves.  A [api_pre_save] receiver that raises undoes the
    save.  A [api_post_save] receiver that raises does not: the first
    transaction is over, so the call raises and the rows stay as the
    method left them.  When both receivers accept, the instance is
    returned; and a method that raises is not followed by any signal. *)
Theorem X9_post_save_refusal_does_not_undo (func : db S Row) s instance s' :
  func s = (Ok instance, s') →
  (∀ e, api_pre_save instance user = Raise e →
        with_signals func s = (Raise e, s))
  ∧ (∀ e, api_pre_save instance user = Ok () →
          api_post_save instance user = Raise e →
          with_signals func s = (Raise e, s'))
  ∧ (api_pre_save instance user = Ok () →
     api_post_save instance user = Ok () →
     with_signals func s = (Ok instance, s')).
Proof.
  intros Hf. unfold Signal.with_signals.
  unfold atomic, mbind, db_bind, lift, mret, db_ret. rewrite Hf.
  split; [|split].
  - by intros e ->.
  - by intros e -> ->.
  - by intros -> ->.
Qed.

(** A method that raises is not followed by any signal: the rows are as
    they were whatever the receivers would answer. *)
Lemma with_signals_method_raises (func : db S Row) s e s' :
  func s = (Raise e, s') → with_signals func s = (Raise e, s).
Proof.
  intros Hf. unfold Signal.with_signals.
  unfold atomic, mbind, db_bind, lift, mret, db_ret. by rewrite Hf.
Qed.

End SignalExtras.

Lemma X9_post_save_refusal_does_not_undo_witness :
  (∀ e, Samples.accept (Group.model_update Samples.rename Samples.web) Samples.ann
        = Raise e →
        Signal.with_signals Samples.accept MoreSamples.refuse Samples.ann
          (modify (Group.model_update Samples.rename) ≫= λ _, get) Samples.web
        = (Raise e, Samples.web))
  ∧ (∀ e, Samples.accept (Group.model_update Samples.rename Samples.web) Samples.ann
          = Ok () →
          MoreSamples.refuse (Group.model_update Samples.rename Samples.web) Samples.ann
          = Raise e →
          Signal.with_signals Samples.accept MoreSamples.refuse Samples.ann
            (modify (Group.model_update Samples.rename) ≫= λ _, get) Samples.web
          = (Raise e, Group.model_update Samples.rename Samples.web))
  ∧ (Samples.accept (Group.model_update Samples.rename Samples.web) Samples.ann
     = Ok () →
     MoreSamples.refuse (Group.model_update Samples.rename Samples.web) Samples.ann
     = Ok () →
     Signal.with_signals Samples.accept MoreSamples.refuse Samples.ann
       (modify (Group.model_update Samples.rename) ≫= λ _, get) Samples.web
     = (Ok (Group.model_update Samples.rename Samples.web),
        Group.model_update Samples.rename Samples.web)).
Proof.
  apply (X9_post_save_refusal_does_not_undo Samples.accept MoreSamples.refuse
           Samples.ann
           (modify (Group.model_update Samples.rename) ≫= λ _, get)
           Samples.web
           (Group.model_update Samples.rename Samples.web)
           (Group.model_update Samples.rename Samples.web)).
  reflexivity.
Defined.

(** The sample in full: the group is renamed although the call raised. *)
Example renamed_although_refused :
  Signal.with_signals Samples.accept MoreSamples.refuse Samples.ann
    (modify (Group.model_update Samples.rename) ≫= λ _, get) Samples.web
  = (Raise (ValidationError "refused"),
     Group.mkGroup 11 "frontend" "" false [21%Z; 22%Z] [] 1).
Proof. reflexivity. Qed.

(** ** [DictField] and [DataSerializer] *)

Section FieldExtras.
Import Fields.
Variable fail : string → exn.
Variable json_loads : string → result json.

Local Abbreviation to_internal_value := (to_internal_value fail).
Local Abbreviation to_representation := (to_representation json_loads).

(** X10: what the field takes in and gives back.  A dictionary or a list
    passes both ways unchanged, so writing and reading it is a round
    trip.  A string is taken in as it is, without being parsed, and is
    parsed only on the way out: a text [json.loads] refuses is accepted
    on write and raises on read.  Nothing else is taken in: [None], a
    boolean or a number ends in [self.fail]. *)
Theorem X10_field_round_trip (data : json) :
  match data with
  | JDict _ | JList _ =>
      to_internal_value data = Ok data
      ∧ (to_internal_value data ≫= to_representation) = Ok data
  | JStr s =>
      to_internal_value data = Ok data
      ∧ (to_internal_value data ≫= to_representation) = json_loads s
  | JNull | JBool _ | JInt _ =>
      to_internal_value data = Raise (fail "Unknown type.")
      ∧ (to_internal_value data ≫= to_representation)
        = Raise (fail "Unknown type.")
  end.
Proof. by destruct data. Qed.

End FieldExtras.

(** A text that is no JSON is taken in and raises when rendered. *)
Example field_accepts_then_raises :
  Fields.to_internal_value MoreSamples.fail_sample (JStr "{oops")
  = Ok (JStr "{oops")
  ∧ Fields.to_representation MoreSamples.loads_sample (JStr "{oops")
    = Raise (ValueError "No JSON object could be decoded").
Proof. by split. Qed.

(** ** Masking, further *)

Section MaskExtras.
Import Variables.

Lemma masked_ext hv1 hv2 (vars : gmap string json) :
  (∀ k, k ∈ hv1 ↔ k ∈ hv2) → masked hv1 vars = masked hv2 vars.
Proof.
  intros Hsame. apply map_eq. intros k. rewrite !masked_lookup.
  by rewrite (bool_decide_ext _ _ (Hsame k)).
Qed.

Lemma masked_idemp hv (vars : gmap string json) :
  masked hv (masked hv vars) = masked hv vars.
Proof.
  apply map_eq. intros k. rewrite !masked_lookup.
  destruct (vars !! k) as [v|]; [|done]. simpl. by case_bool_decide.
Qed.

Lemma masked_hides hv (vars1 vars2 : gmap string json) :
  dom vars1 = dom vars2 →
  (∀ k, k ∉ hv → vars1 !! k = vars2 !! k) →
  masked hv vars1 = masked hv vars2.
Proof.
  intros Hdom Hsame. apply map_eq. intros k. rewrite !masked_lookup.
  destruct (decide (k ∈ hv)) as [Hk|Hk].
  - rewrite bool_decide_true by done.
    assert (is_Some (vars1 !! k) ↔ is_Some (vars2 !! k)) as Hiff
      by (by rewrite <- !elem_of_dom, Hdom).
    destruct (vars1 !! k) as [v1|] eqn:H1, (vars2 !! k) as [v2|] eqn:H2;
      try done.
    + destruct Hiff as [Hiff _]. by destruct Hiff.
    + destruct Hiff as [_ Hiff]. by destruct Hiff.
  - by rewrite Hsame.
Qed.

(** X11: the rendering does not depend on the hidden values.  Two stored
    variable maps with the same keys that agree on every key outside the
    hidden set are rendered alike, whatever the hidden keys hold. *)
Theorem X11_rendering_hides_the_hidden_values
    (instance_HIDDEN_VARS hidden_vars : option (list string))
    (rep vars1 vars2 : gmap string json) :
  dom vars1 = dom vars2 →
  (∀ k, k ∉ match hidden_vars with
            | None => default [] instance_HIDDEN_VARS
            | Some hv => hv
            end →
        vars1 !! k = vars2 !! k) →
  to_representation get_vars instance_HIDDEN_VARS
    (<["vars" := JDict vars1]> rep) hidden_vars
  = to_representation get_vars instance_HIDDEN_VARS
      (<["vars" := JDict vars2]> rep) hidden_vars.
Proof.
  intros Hdom Hsame. unfold to_representation. simpl.
  rewrite !lookup_insert_eq. simpl. rewrite !mask_loop_dict. simpl.
  rewrite !insert_insert_eq. do 3 f_equal. by apply masked_hides.
Qed.

(** X12: the masking loop depends on the hidden keys as a set.  Listing
    them in another order, or a key twice, gives the same result; and
    masking what is already masked changes nothing. *)
Theorem X12_mask_loop_is_a_set_operation hv1 hv2 (vars : gmap string json) :
  (∀ k, k ∈ hv1 ↔ k ∈ hv2) →
  mask_loop hv1 (JDict vars) = mask_loop hv2 (JDict vars)
  ∧ ∃ vars', mask_loop hv1 (JDict vars) = Ok (JDict vars')
             ∧ mask_loop hv2 (JDict vars') = Ok (JDict vars').
Proof.
  intros Hsame. rewrite !mask_loop_dict. split.
  - by rewrite (masked_ext hv1 hv2).
  - eexists. split; [done|]. rewrite mask_loop_dict.
    by rewrite (masked_ext hv1 hv2), masked_idemp.
Qed.

(** X13: what is not a variable map.  A representation without ["vars"],
    or with a null one, comes back as it is.  A ["vars"] that is a list
    (the field accepts lists), a string, a number or a boolean makes the
    loop raise [AttributeError] at its first key; with no hidden key the
    loop does not run and the representation comes back as it is. *)
Theorem X13_rendering_without_a_map instance_HIDDEN_VARS
    (rep : gmap string json) (hv : list string) :
  (rep !! "vars" = None ∨ rep !! "vars" = Some JNull →
   to_representation get_vars instance_HIDDEN_VARS rep (Some hv) = Ok rep)
  ∧ (∀ vars, rep !! "vars" = Some vars → vars ≠ JNull →
       (∀ d, vars ≠ JDict d) →
       to_representation get_vars instance_HIDDEN_VARS rep (Some hv)
       = match hv with [] => Ok rep | _ :: _ => Raise AttributeError end).
Proof.
  split.
  - intros [Hv|Hv]; unfold to_representation; simpl; by rewrite Hv.
  - intros vars Hv Hnull Hdict. unfold to_representation. simpl. rewrite Hv. simpl.
    destruct hv as [|k hv].
    + destruct vars; try done; simpl; by rewrite insert_id.
    + destruct vars as [| | | | |d]; try done. by destruct (Hdict d).
Qed.

End MaskExtras.

Section MaskExtraSamples.
Import Variables Samples MoreSamples.

Lemma X11_rendering_hides_the_hidden_values_witness :
  to_representation get_vars None (<["vars" := JDict deploy_vars]> ∅)
    (Some hidden_keys)
  = to_representation get_vars None (<["vars" := JDict deploy_vars']> ∅)
      (Some hidden_keys).
Proof.
  apply (X11_rendering_hides_the_hidden_values None (Some hidden_keys) ∅
           deploy_vars deploy_vars').
  - unfold deploy_vars, deploy_vars'. by rewrite !dom_insert_L.
  - intros k Hk. unfold deploy_vars, deploy_vars'. rewrite !lookup_insert.
    case_decide as Heq; [|done]. exfalso. apply Hk. subst k.
    unfold hidden_keys. right. left.
Defined.

Lemma X12_mask_loop_is_a_set_operation_witness :
  mask_loop ["private-key"; "key-file"; "private-key"] (JDict deploy_vars)
  = mask_loop hidden_keys (JDict deploy_vars)
  ∧ ∃ vars',
      mask_loop ["private-key"; "key-file"; "private-key"] (JDict deploy_vars)
      = Ok (JDict vars')
      ∧ mask_loop hidden_keys (JDict vars') = Ok (JDict vars').
Proof.
  apply (X12_mask_loop_is_a_set_operation
           ["private-key"; "key-file"; "private-key"] hidden_keys deploy_vars).
  intros k. unfold hidden_keys. rewrite !elem_of_cons, elem_of_nil. tauto.
Defined.

End MaskExtraSamples.

(** ** Templates, further *)

Section TemplateExtras.
Import Template.
Variable PeriodicTask_HIDDEN_VARS : list string.

Local Abbreviation hv := PeriodicTask_HIDDEN_VARS.
Local Abbreviation to_representation := (to_representation PeriodicTask_HIDDEN_VARS).

Lemma masked_option_shape hv' rep :
  option_shape rep → option_shape (masked_option hv' rep).
Proof.
  destruct rep as [| | | | |d]; try done. simpl.
  destruct (d !! "vars") as [[| | | | |v]|] eqn:Hv; simpl; rewrite ?Hv; try done.
  by rewrite lookup_insert_eq.
Qed.

Lemma masked_option_idemp hv' rep :
  masked_option hv' (masked_option hv' rep) = masked_option hv' rep.
Proof.
  destruct rep as [| | | | |d]; try done. simpl.
  destruct (d !! "vars") as [[| | | | |v]|] eqn:Hv; simpl; rewrite ?Hv; try done.
  rewrite lookup_insert_eq, insert_insert_eq. by rewrite masked_idemp.
Qed.

(** X14: rendering is idempotent.  For a Task or Module template whose
    rendered fields have a variable map and well-shaped options, the
    rendering of what was already rendered is the same representation:
    a masked value is never masked into something else. *)
Theorem X14_rendering_twice_is_rendering_once instance
    (data_d base_vars options : gmap string json) :
  kind instance ∈ ["Task"; "Module"] →
  rendered instance !! "data" = Some (JDict data_d) →
  data_d !! "vars" = Some (JDict base_vars) →
  rendered instance !! "options" = Some (JDict options) →
  (∀ name rep, options !! name = Some rep → option_shape rep) →
  ∃ out,
    to_representation instance = Ok out
    ∧ to_representation (mkTemplate (kind instance) (HIDDEN_VARS instance) out)
      = Ok out.
Proof.
  intros Hkind Hdata Hvars Hopt Hshape.
  eexists. split; [by eapply to_representation_rendered|].
  erewrite (to_representation_rendered _ _
              (<["vars" := JDict (Variables.masked hv base_vars)]> data_d)
              (Variables.masked hv base_vars)
              (masked_option hv <$> options)); cbn [kind rendered].
  - rewrite masked_idemp, <- map_fmap_compose.
    rewrite (map_fmap_ext _ (masked_option hv))
      by (intros; apply masked_option_idemp).
    apply f_equal, map_eq. intros f. rewrite !lookup_insert.
    repeat case_decide; try done. by rewrite insert_insert_eq.
  - exact Hkind.
  - rewrite lookup_insert_ne by (intros ?; discriminate).
    apply lookup_insert_eq.
  - apply lookup_insert_eq.
  - apply lookup_insert_eq.
  - intros name rep. rewrite lookup_fmap.
    destruct (options !! name) as [rep0|] eqn:Hrep; [|by intros ?].
    intros Heq. injection Heq as <-.
    apply masked_option_shape. by eapply Hshape.
Qed.

End TemplateExtras.

Section TemplateExtraSamples.
Import Template Samples.

Lemma X14_rendering_twice_is_rendering_once_witness :
  ∃ out,
    to_representation hidden_keys deploy = Ok out
    ∧ to_representation hidden_keys
        (mkTemplate (kind deploy) (HIDDEN_VARS deploy) out)
      = Ok out.
Proof.
  apply (X14_rendering_twice_is_rendering_once hidden_keys deploy
           deploy_data deploy_vars deploy_options);
    [decide_by_compute | reflexivity | reflexivity | reflexivity |].
  change (map_Forall (λ _ rep, option_shape rep) deploy_options).
  decide_by_compute.
Defined.

End TemplateExtraSamples.

Section TemplateEdges.
Import Template.
Variable PeriodicTask_HIDDEN_VARS : list string.

Local Abbreviation hv := PeriodicTask_HIDDEN_VARS.
Local Abbreviation to_representation := (to_representation PeriodicTask_HIDDEN_VARS).

(** [set_opts_vars] raises nothing but [AttributeError]. *)
Lemma set_opts_vars_outcome rep hv' :
  (∃ rep', set_opts_vars rep hv' = Ok rep')
  ∨ set_opts_vars rep hv' = Raise AttributeError.
Proof.
  unfold set_opts_vars.
  destruct rep as [| | | | |d]; simpl; try (by right).
  destruct (truthy (default JNull (d !! "vars"))); simpl; [|left; by eexists].
  assert (∀ v, (∃ v', Variables.mask_loop hv' v = Ok v')
               ∨ Variables.mask_loop hv' v = Raise AttributeError) as Hloop.
  { induction hv' as [|k hv' IH]; intros v; simpl; [left; by eexists|].
    unfold Variables.mask_step.
    destruct v as [| | | | |dv]; simpl; try (by right).
    case_bool_decide; apply IH. }
  destruct (Hloop (default JNull (d !! "vars"))) as [[v' ->]| ->]; simpl;
    [left; by eexists|by right].
Qed.

(** The loop over the options stops at the first option it cannot mask. *)
Lemma repr_options_fold_raises hv' (options acc : gmap string json) name rep :
  options !! name = Some rep →
  set_opts_vars rep hv' = Raise AttributeError →
  map_fold
    (λ name rep (acc : result (gmap string json)),
       acc ≫= λ o, set_opts_vars rep hv' ≫= λ rep', mret (<[name := rep']> o))
    (mret acc) options
  = Raise AttributeError.
Proof.
  intros Hname Hraise.
  induction options as [|i x options Hi Hfirst IH] using map_first_key_ind;
    [by rewrite lookup_empty in Hname|].
  rewrite map_fold_insert_first_key by done.
  destruct (decide (i = name)) as [->|Hne].
  - rewrite lookup_insert_eq in Hname. injection Hname as ->.
    match goal with |- ?m ≫= _ = _ => destruct m as [o|e] eqn:Hfold end;
      simpl; [by rewrite Hraise|].
    cut (e = AttributeError); [by intros ->|].
    clear -Hfold. revert e Hfold.
    induction options as [|j y options Hj Hfirst' IH'] using map_first_key_ind;
      intros e; [by rewrite map_fold_empty|].
    rewrite map_fold_insert_first_key by done.
    match goal with |- ?m ≫= _ = _ → _ => destruct m as [o|e'] eqn:Hfold' end;
      simpl.
    + destruct (set_opts_vars_outcome y hv') as [[y' ->]| ->];
        intros Heq; cbn in Heq; by simplify_eq.
    + intros [= <-]. by eapply IH'.
  - rewrite lookup_insert_ne in Hname by done. by rewrite IH.
Qed.

(** X15: renderings that are not the usual shape, for a Task or Module
    template.  Without a ["data"] field (the list serializer does not
    render it) nothing is looked for in it and the options are masked all
    the same; a ["data"] that is a dictionary without ["vars"] likewise.
    A ["data"] that is a list or a scalar raises [TypeError], the
    [except KeyError] of line 520 not catching it.  An ["options"] that
    is present but null, or an option that cannot be masked (one that is
    no dictionary, say), raises [AttributeError]. *)
Theorem X15_odd_shaped_templates instance :
  kind instance ∈ ["Task"; "Module"] →
  (∀ options,
     rendered instance !! "data" = None
     ∨ (∃ d, rendered instance !! "data" = Some (JDict d) ∧ d !! "vars" = None) →
     rendered instance !! "options" = Some (JDict options) →
     (∀ name rep, options !! name = Some rep → option_shape rep) →
     to_representation instance
     = Ok (<["options" := JDict (masked_option hv <$> options)]> (rendered instance)))
  ∧ (∀ v, rendered instance !! "data" = Some v → (∀ d, v ≠ JDict d) →
       to_representation instance = Raise TypeError)
  ∧ (rendered instance !! "data" = None →
     rendered instance !! "options" = Some JNull →
     to_representation instance = Raise AttributeError)
  ∧ (∀ options name rep,
       rendered instance !! "data" = None →
       rendered instance !! "options" = Some (JDict options) →
       options !! name = Some rep → (∀ d, rep ≠ JDict d) →
       to_representation instance = Raise AttributeError).
Proof.
  intros Hkind. unfold Template.to_representation.
  rewrite bool_decide_true by done.
  unfold Variables.to_representation, get_vars, getitem.
  cbn [Variables.vars_get].
  split; [|split; [|split]].
  - intros options Hdata Hopt Hshape.
    destruct Hdata as [Hd|(d & Hd & Hv)]; rewrite Hd; simpl; rewrite ?Hv; simpl;
      by apply repr_options_run.
  - intros v Hd Hnd. rewrite Hd. simpl.
    destruct v as [| | | | |d]; try done. by destruct (Hnd d).
  - intros Hd Hopt. rewrite Hd. simpl.
    unfold repr_options. by rewrite Hopt.
  - intros options name rep Hd Hopt Hname Hnd. rewrite Hd. simpl.
    unfold repr_options. rewrite Hopt. simpl.
    erewrite repr_options_fold_raises; [done|exact Hname|].
    destruct rep as [| | | | |d]; try done. by destruct (Hnd d).
Qed.

End TemplateEdges.

Section TemplateEdgeSamples.
Import Template Samples MoreSamples.

Lemma X15_odd_shaped_templates_witness :
  to_representation hidden_keys listed
  = Ok (<["options" := JDict (masked_option hidden_keys <$> deploy_options)]>
          (rendered listed)).
Proof.
  apply (proj1 (X15_odd_shaped_templates hidden_keys listed
                  ltac:(decide_by_compute)) deploy_options);
    [left; reflexivity | reflexivity |].
  change (map_Forall (λ _ rep, option_shape rep) deploy_options).
  decide_by_compute.
Defined.

End TemplateEdgeSamples.

(** ** Periodic tasks, further *)

Section PeriodictaskExtras.
Import Periodictask.
Variable defaults : Row.
Variable api_pre_save api_post_save : Row → User → result ().
Variable user : User.

Local Abbreviation create := (create defaults api_pre_save api_post_save user).
Local Abbreviation update := (update api_pre_save api_post_save user).
Local Abbreviation saved_unless_refused :=
  (Signal.saved_unless_refused api_pre_save api_post_save user).

(* The validated data as [_WithPermissionsSerializer.create] passes it on. *)
Local Abbreviation with_owner kw :=
  {| kind := kind kw; template := template kw; project := project kw;
     inventory := inventory kw; mode := mode kw;
     owner := Some (user_id user); rest := rest kw |}.

Lemma create_prepared (validated_data kw : Data) before :
  prepare validated_data = Ok kw →
  create validated_data before
  = saved_unless_refused (model_create defaults (with_owner kw)) before
      (Some (model_create defaults (with_owner kw))).
Proof.
  intros Hp. unfold Periodictask.create, do_with_vars_create.
  apply atomic_saved_unless_refused.
  erewrite bind_ok; [|unfold lift; by rewrite Hp].
  unfold permissions_create, signal_create. by apply do_with_vars_signals.
Qed.

Lemma update_prepared (validated_data kw : Data) stored :
  prepare validated_data = Ok kw →
  update validated_data stored
  = saved_unless_refused (model_update kw stored) stored (model_update kw stored).
Proof.
  intros Hp. unfold Periodictask.update, Variables.update.
  db_step. simpl. unfold do_with_vars_update.
  apply atomic_saved_unless_refused.
  erewrite bind_ok; [|unfold lift; by rewrite Hp].
  unfold Variables.signal_update. by apply do_with_vars_signals.
Qed.

Lemma prepare_other_kind (kw : Data) :
  kind kw ≠ Some "TEMPLATE" → prepare kw = Ok kw.
Proof. intros Hk. unfold prepare. by rewrite bool_decide_false. Qed.

(** X16: a write whose validated data is not of kind TEMPLATE goes to the
    save as it came: the task saved has the inventory and the mode of the
    request, or the model's default (on create) or the stored value (on
    update) where the request names none. *)
Theorem X16_other_kinds_keep_inventory_and_mode (validated_data : Data) :
  kind validated_data ≠ Some "TEMPLATE" →
  (∀ before, ∃ row,
     create validated_data before = saved_unless_refused row before (Some row)
     ∧ row_inventory row
       = default (row_inventory defaults) (inventory validated_data)
     ∧ row_mode row = default (row_mode defaults) (mode validated_data))
  ∧ (∀ stored, ∃ row,
       update validated_data stored = saved_unless_refused row stored row
       ∧ row_inventory row
         = default (row_inventory stored) (inventory validated_data)
       ∧ row_mode row = default (row_mode stored) (mode validated_data)).
Proof.
  intros Hk. split.
  - intros before. eexists. split;
      [by apply create_prepared, prepare_other_kind|done].
  - intros stored. eexists. split;
      [by apply update_prepared, prepare_other_kind|done].
Qed.

(** X17: kind TEMPLATE without a template.  [kw.get('template')] is
    [None] and [template.project] raises [AttributeError]: nothing is
    saved, by [create] or by [update], and no receiver is asked. *)
Theorem X17_template_kind_needs_a_template (validated_data : Data) :
  kind validated_data = Some "TEMPLATE" →
  template validated_data = None →
  (∀ before, create validated_data before = (Raise AttributeError, before))
  ∧ (∀ stored, update validated_data stored = (Raise AttributeError, stored)).
Proof.
  intros Hk Ht.
  assert (prepare validated_data = Raise AttributeError) as Hp.
  { unfold prepare. rewrite bool_decide_true by done. by rewrite Ht. }
  split.
  - intros before. unfold Periodictask.create, do_with_vars_create.
    eapply atomic_raise, bind_raise. unfold lift. by rewrite Hp.
  - intros stored. unfold Periodictask.update, Variables.update.
    db_step. simpl. unfold do_with_vars_update.
    eapply atomic_raise, bind_raise. unfold lift. by rewrite Hp.
Qed.

(** X18: the blanking of lines 436-440 looks at the request, not at the
    stored task.  An update that does not carry [kind] (a partial update)
    and names an inventory is saved as it came: a stored task of kind
    TEMPLATE keeps its kind and gets that inventory. *)
Theorem X18_update_without_kind_is_not_blanked (validated_data : Data) stored inv :
  kind validated_data = None →
  inventory validated_data = Some inv →
  row_kind stored = "TEMPLATE" →
  ∃ row, update validated_data stored = saved_unless_refused row stored row
         ∧ row_kind row = "TEMPLATE"
         ∧ row_inventory row = inv.
Proof.
  intros Hk Hinv Hstored. eexists. split.
  - apply update_prepared, prepare_other_kind. by rewrite Hk.
  - unfold model_update. simpl. by rewrite Hk, Hinv.
Qed.

(** X19: [create] makes the requesting user the owner (line 105),
    whatever owner the validated data names and whatever the kind. *)
Theorem X19_create_stamps_the_owner (validated_data kw : Data) before :
  prepare validated_data = Ok kw →
  ∃ row, create validated_data before = saved_unless_refused row before (Some row)
         ∧ row_owner row = Some (user_id user).
Proof.
  intros Hp. eexists. split; [by apply create_prepared|done].
Qed.

End PeriodictaskExtras.

Section PeriodictaskExtraSamples.
Import Periodictask Samples MoreSamples.

Lemma X16_other_kinds_keep_inventory_and_mode_witness :
  (∀ before, ∃ row,
     create blank_task accept accept ann playbook_task before
     = Signal.saved_unless_refused accept accept ann row before (Some row)
     ∧ row_inventory row = default (row_inventory blank_task) (inventory playbook_task)
     ∧ row_mode row = default (row_mode blank_task) (mode playbook_task))
  ∧ (∀ stored, ∃ row,
       update accept accept ann playbook_task stored
       = Signal.saved_unless_refused accept accept ann row stored row
       ∧ row_inventory row = default (row_inventory stored) (inventory playbook_task)
       ∧ row_mode row = default (row_mode stored) (mode playbook_task)).
Proof.
  apply (X16_other_kinds_keep_inventory_and_mode blank_task accept accept ann
           playbook_task).
  by vm_compute.
Defined.

Lemma X17_template_kind_needs_a_template_witness :
  (∀ before, create blank_task accept accept ann template_without before
             = (Raise AttributeError, before))
  ∧ (∀ stored, update accept accept ann template_without stored
               = (Raise AttributeError, stored)).
Proof.
  apply (X17_template_kind_needs_a_template blank_task accept accept ann
           template_without); reflexivity.
Defined.

Lemma X18_update_without_kind_is_not_blanked_witness :
  ∃ row, update accept accept ann only_inventory stored_template_task
         = Signal.saved_unless_refused accept accept ann row stored_template_task row
         ∧ row_kind row = "TEMPLATE"
         ∧ row_inventory row = "5".
Proof.
  apply (X18_update_without_kind_is_not_blanked accept accept ann only_inventory
           stored_template_task "5"); reflexivity.
Defined.

Lemma X19_create_stamps_the_owner_witness :
  ∃ row, create blank_task accept accept ann playbook_task None
         = Signal.saved_unless_refused accept accept ann row None (Some row)
         ∧ row_owner row = Some (user_id ann).
Proof.
  apply (X19_create_stamps_the_owner blank_task accept accept ann
           playbook_task playbook_task None).
  reflexivity.
Defined.

(** The partial update in full: the stored TEMPLATE task now has an
    inventory. *)
Example template_task_with_an_inventory :
  update accept accept ann only_inventory stored_template_task
  = (Ok (mkRow "TEMPLATE" (Some 9%Z) (Some 3%Z) "5" "" (Some 1%Z) ∅),
     mkRow "TEMPLATE" (Some 9%Z) (Some 3%Z) "5" "" (Some 1%Z) ∅).
Proof. by vm_compute. Qed.

End PeriodictaskExtraSamples.

(** ** Execution, further *)

Section ExecutionExtras.
Import Project.
Variable int_of_str : string → option Z.
Variable py_str : json → string.
Variable format_inventory : inventory_arg → string.
Variable inventories : gmap Z InventoryRow.
Variable viewable_by : InventoryRow → User → bool.
Variable execute : ExecCall → result Z.

Local Abbreviation _execution :=
  (_execution int_of_str py_str format_inventory inventories viewable_by execute).
Local Abbreviation py_int := (py_int int_of_str).

(** X20: requests that never reach [execute].  Without an ["inventory"]
    the request ends in [KeyError].  An inventory that is null, a list or
    a dictionary ends in [TypeError]: [int] raises it and line 709
    catches [ValueError] only.  An id no inventory has ends in
    [DoesNotExist].  And an inline inventory with no playbook or module
    in the data ends in [KeyError] for that key.  All four hold for
    every [execute]: it is not called. *)
Theorem X20_requests_that_do_not_run (instance_id : Z) (kind : string)
    (data : gmap string json) (user : User) (template : option Z)
    (template_option : option json) :
  (data !! "inventory" = None →
   _execution instance_id kind data user template template_option
   = Raise (KeyError "inventory"))
  ∧ (∀ inventory,
       data !! "inventory" = Some inventory →
       inventory = JNull ∨ (∃ l, inventory = JList l) ∨ (∃ d, inventory = JDict d) →
       _execution instance_id kind data user template template_option
       = Raise TypeError)
  ∧ (∀ inventory n,
       data !! "inventory" = Some inventory →
       py_int inventory = Ok n → inventories !! n = None →
       _execution instance_id kind data user template template_option
       = Raise DoesNotExist)
  ∧ (∀ s,
       data !! "inventory" = Some (JStr s) → int_of_str s = None →
       kind = "playbook" ∨ kind = "module" → data !! kind = None →
       _execution instance_id kind data user template template_option
       = Raise (KeyError kind)).
Proof.
  unfold Project._execution, pop. split; [|split; [|split]].
  - by intros ->.
  - intros inventory -> Hshape. simpl.
    by destruct Hshape as [->|[[l ->]|[d ->]]].
  - intros inventory n -> Hn Hnone. simpl. rewrite Hn. simpl.
    unfold Inventory_objects_get. by rewrite Hnone.
  - intros s -> Hs Hkind Hnone. simpl. rewrite Hs. simpl.
    assert (kind ≠ "inventory" ∧ kind ≠ "template_option") as [Hk1 Hk2]
      by (destruct Hkind as [-> | ->]; by split).
    unfold dispatch, pop. destruct template as [t|]; simpl.
    + rewrite lookup_insert_ne, lookup_delete_ne by done. by rewrite Hnone.
    + rewrite lookup_delete_ne by done. by rewrite Hnone.
Qed.


End ExecutionExtras.

Section ExecutionExtraSamples.
Import Project Samples MoreSamples.


(** The same request, answered. *)
Example run_answered :
  _execution digits_only show show_inventory inventory_table everybody_views
    history_42 1 "playbook" by_id ann None None
  = Ok (mkResponse {| detail := "Started at inventory prod.";
                      history_id := 42;
                      executor := 5 |} 201%Z).
Proof. reflexivity. Qed.

End ExecutionExtraSamples.

(** ** The permissions action, further *)

Section PermissionAnswers.
Import Permissions.
Variable manageable_by : Entity → User → bool.
Variable filter_by_data : list perm → perm → bool.

Local Abbreviation permissions := (permissions manageable_by filter_by_data).

Lemma permissions_answer user request s resp s' :
  permissions user request s = (Ok resp, s') →
  resp = mkResponse (acl s') 200%Z.
Proof.
  intros Hrun.
  destruct (decide (method request = "GET")) as [Hget|Hget].
  { rewrite permissions_get in Hrun by done. by simplify_eq. }
  destruct (manageable_by s user) eqn:Hmb.
  2:{ unfold Permissions.permissions in Hrun.
      erewrite atomic_raise in Hrun by (by apply permissions_body_denied).
      done. }
  destruct request as [m data]. simpl in Hget.
  destruct (decide (m = "DELETE")) as [->|Hdel].
  { rewrite permissions_delete in Hrun by done. by simplify_eq. }
  destruct (decide (m = "POST")) as [->|Hpost].
  { destruct (decide (NoDup (perm_key <$> data))) as [Hd|Hd].
    - rewrite permissions_post in Hrun by done. by simplify_eq.
    - rewrite permissions_duplicates in Hrun by (done || by left). done. }
  destruct (decide (m = "PUT")) as [->|Hput].
  { destruct (decide (NoDup (perm_key <$> data))) as [Hd|Hd].
    - rewrite permissions_put in Hrun by done. by simplify_eq.
    - rewrite permissions_duplicates in Hrun by (done || by right). done. }
  rewrite permissions_other in Hrun by done. by simplify_eq.
Qed.

(** X22: an answer is the listing.  Whatever the method, when the action
    answers, the answer has status 200 and carries exactly the entries
    stored once the call is over; a GET sent next, by any user, gets the
    same answer and changes nothing. *)
Theorem X22_every_answer_is_the_listing user reader request next resp s s' :
  permissions user request s = (Ok resp, s') →
  method next = "GET" →
  data resp = acl s' ∧ status resp = 200%Z
  ∧ permissions reader next s' = (Ok resp, s').
Proof.
  intros Hrun Hget. apply permissions_answer in Hrun as ->.
  split; [done|]. split; [done|]. by apply permissions_get.
Qed.


End PermissionAnswers.

Section PermissionAnswerSamples.
Import Permissions Samples.

Lemma X22_every_answer_is_the_listing_witness :
  data (mkResponse [editor2; master3] 200%Z) = acl (mkEntity 1 [editor2; master3])
  ∧ status (mkResponse [editor2; master3] 200%Z) = 200%Z
  ∧ permissions everyone_manages same_entry bob (mkRequest "GET" [])
      (mkEntity 1 [editor2; master3])
    = (Ok (mkResponse [editor2; master3] 200%Z), mkEntity 1 [editor2; master3]).
Proof.
  apply (X22_every_answer_is_the_listing everyone_manages same_entry ann bob
           (mkRequest "POST" [master3]) (mkRequest "GET" [])
           (mkResponse [editor2; master3] 200%Z) shared
           (mkEntity 1 [editor2; master3]));
    reflexivity.
Defined.


End PermissionAnswerSamples.
